(** * Page objects of the Sauce Demo Playwright suite

    A shallow embedding of the page-interaction layer (BasePage and the
    page objects LoginPage, InventoryPage, CartPage, CheckoutPage) and the
    properties of it that the specification states.

    The browser driver (Playwright's Page, Locator and expect) is an
    external collaborator: it is an interface here, [Driver], over an
    abstract browser state.  Every asynchronous method of the source is a
    [Task]: a function on a session that returns a value or throws, and
    that records each driver call it issues, in order. *)

From Stdlib Require Import String Ascii List ZArith Bool Lia DecimalString.
Import ListNotations.
Open Scope string_scope.

(* ================================================================= *)
(** ** JavaScript values used by the page objects *)

Module Js.

(** The double-quote character, as it appears inside template literals. *)
Definition dq : string := String (ascii_of_nat 34) EmptyString.

(** [`"${s}"`]. *)
Definition quoted (s : string) : string := dq ++ s ++ dq.

(** An Error object: what [new Error(message)] builds and what the driver
    throws.  [name] is the constructor's name. *)
Record Error := mkError { name : string; message : string }.

(** [new Error(message)]. *)
Definition newError (msg : string) : Error :=
  {| name := "Error"; message := msg |}.

(** [Error.prototype.toString], which a template literal [`${error}`]
    calls. *)
Definition toString (e : Error) : string :=
  match name e, message e with
  | EmptyString, m => m
  | n, EmptyString => n
  | n, m => n ++ ": " ++ m
  end.

(** [`${n}`] for an integral number (plain decimal notation, the range in
    which JavaScript prints no exponent). *)
Definition numberToString (n : Z) : string :=
  NilZero.string_of_int (Z.to_int n).

(** A regular expression object, identified by its source. *)
Record RegExp := mkRegExp { source : string }.

(** The result of running a piece of code: it returns or it throws. *)
Inductive Outcome (A : Type) : Type :=
| Ok (a : A)
| Throw (e : Error).
Arguments Ok {A} a.
Arguments Throw {A} e.

(** What a piece of code threw, if it threw. *)
Definition thrown {A} (r : Outcome A) : option Error :=
  match r with Ok _ => None | Throw e => Some e end.

End Js.
Import Js.

(* ================================================================= *)
(** ** The driver interface *)

(** A locator is lazy: a description of how to find elements.
    [page.locator(s)], [l.first()], [l.locator(s)]. *)
Inductive Locator : Type :=
| Loc (selector : string)
| LocFirst (l : Locator)
| LocSub (parent : Locator) (selector : string).

(** The argument of [expect(page).toHaveURL]: a string or a RegExp. *)
Inductive UrlMatcher : Type :=
| UrlIs (url : string)
| UrlMatches (re : RegExp).

(** The driver calls a page object can issue.  [timeout] is the optional
    override, in milliseconds; [None] is [undefined], the driver's default. *)
Inductive Op : Type :=
| Goto (url : string)
| ToBeVisible (l : Locator) (timeout : option Z)
| NotToBeVisible (l : Locator)
| ToHaveText (l : Locator) (text : string) (timeout : option Z)
| ToHaveCount (l : Locator) (n : Z)
| ToHaveURL (expected : UrlMatcher)
| Click (l : Locator)
| Fill (l : Locator) (value : string)
| Press (l : Locator) (key : string)
| SelectOption (l : Locator) (option : string)
| AllTextContents (l : Locator).

(** One driver call and how it ended: [None] when it returned, the error
    when it threw. *)
Record Event := Ev { ev_op : Op; ev_thrown : option Error }.

(** The driver over a browser state [World].  Every awaited operation may
    throw and may change the browser state; [page.url()] is synchronous and
    pure.  [new_RegExp] is the RegExp constructor, which throws a
    SyntaxError on a malformed pattern. *)
Class Driver (World : Type) : Type := {
  page_goto : string -> World -> Outcome unit * World;
  page_url : World -> string;
  expect_toBeVisible : Locator -> option Z -> World -> Outcome unit * World;
  expect_not_toBeVisible : Locator -> World -> Outcome unit * World;
  expect_toHaveText :
    Locator -> string -> option Z -> World -> Outcome unit * World;
  expect_toHaveCount : Locator -> Z -> World -> Outcome unit * World;
  expect_toHaveURL : UrlMatcher -> World -> Outcome unit * World;
  locator_click : Locator -> World -> Outcome unit * World;
  locator_fill : Locator -> string -> World -> Outcome unit * World;
  locator_press : Locator -> string -> World -> Outcome unit * World;
  locator_selectOption : Locator -> string -> World -> Outcome unit * World;
  locator_allTextContents : Locator -> World -> Outcome (list string) * World;
  new_RegExp : string -> Outcome RegExp
}.

(** A page has the URL it has: the driver's URL expectation, given the
    URL just read from the page, holds. *)
Definition url_expectation_reflexive {World : Type} {driver : Driver World}
  : Prop :=
  forall w : World,
    exists w', expect_toHaveURL (UrlIs (page_url w)) w = (Ok tt, w').

(* ================================================================= *)
(** ** Tasks: asynchronous methods as state-and-exception passing *)

(** What a running test holds: the browser, the driver calls issued so far
    (oldest first) and the lines written with [console.error]. *)
Record Session (World : Type) : Type := mkSession {
  world : World;
  calls : list Event;
  console : list string
}.
Arguments mkSession {World} _ _ _.
Arguments world {World} _.
Arguments calls {World} _.
Arguments console {World} _.

Definition Task (World A : Type) : Type :=
  Session World -> Outcome A * Session World.

Section TaskMonad.
Context {World : Type}.

Definition ret {A} (a : A) : Task World A := fun s => (Ok a, s).

Definition throw {A} (e : Error) : Task World A := fun s => (Throw e, s).

(** [await c; k]: a throw in [c] skips [k]. *)
Definition bind {A B} (c : Task World A) (k : A -> Task World B)
  : Task World B :=
  fun s =>
    match c s with
    | (Ok a, s') => k a s'
    | (Throw e, s') => (Throw e, s')
    end.

(** [try { body } catch (error) { handler }]. *)
Definition try_catch {A} (body : Task World A)
    (handler : Error -> Task World A) : Task World A :=
  fun s =>
    match body s with
    | (Ok a, s') => (Ok a, s')
    | (Throw e, s') => handler e s'
    end.

(** [console.error(line)]. *)
Definition console_error (line : string) : Task World unit :=
  fun s => (Ok tt, mkSession (world s) (calls s) (console s ++ [line])).

(** Issue one driver call and record it. *)
Definition perform {A} (op : Op) (f : World -> Outcome A * World)
  : Task World A :=
  fun s =>
    let (r, w') := f (world s) in
    (r, mkSession w' (calls s ++ [Ev op (thrown r)]) (console s)).

(** A JavaScript expression that may throw, evaluated without touching
    the browser. *)
Definition eval {A} (r : Outcome A) : Task World A := fun s => (r, s).

End TaskMonad.

Notation "x <- c ;; k" := (bind c (fun x => k))
  (at level 61, c at next level, right associativity).
Notation "c ;; k" := (bind c (fun _ => k))
  (at level 61, right associativity).

(** Start of a test: nothing issued yet. *)
Definition start {World} (w : World) : Session World := mkSession w [] [].

(* ================================================================= *)
(** ** BasePage *)

Module BasePage.
Section BasePage.
Context {World : Type} {driver : Driver World}.

(** [`${timeout || 'default'}`]: [undefined] and [0] are falsy. *)
Definition timeout_or_default (timeout : option Z) : string :=
  match timeout with
  | Some n => if (n =? 0)%Z then "default" else numberToString n
  | None => "default"
  end.

Definition navigate (url : string) : Task World unit :=
  perform (Goto url) (page_goto url).

Definition getLocator (selector : string) : Locator := Loc selector.

(** The messages of the errors the primitives throw; [error] is what
    was caught. *)
Definition notVisibleMessage (selector : string) (timeout : option Z)
    (error : Error) : string :=
  "Element " ++ quoted selector ++ " not visible within "
  ++ timeout_or_default timeout ++ " timeout: " ++ toString error.

Definition textMismatchMessage (selector text : string)
    (timeout : option Z) (error : Error) : string :=
  "Element " ++ quoted selector ++ " does not have expected text "
  ++ quoted text ++ " within " ++ timeout_or_default timeout
  ++ " timeout: " ++ toString error.

Definition clickFailedMessage (selector : string) (error : Error)
  : string :=
  "Failed to click element " ++ quoted selector ++ ": " ++ toString error.

Definition fillFailedMessage (selector value : string) (error : Error)
  : string :=
  "Failed to fill field " ++ quoted selector ++ " with value "
  ++ quoted value ++ ": " ++ toString error.

Definition urlMismatchMessage (urlSubstring currentUrl : string)
    (error : Error) : string :=
  "URL does not contain " ++ quoted urlSubstring ++ ". Current URL: "
  ++ currentUrl ++ ". Error: " ++ toString error.

Definition textContentsFailedMessage (selector : string) (error : Error)
  : string :=
  "Failed to get text contents from elements matching "
  ++ quoted selector ++ ": " ++ toString error.

Definition waitForElement (selector : string) (timeout : option Z)
  : Task World Locator :=
  try_catch
    (let locator := getLocator selector in
     perform (ToBeVisible locator timeout)
             (expect_toBeVisible locator timeout) ;;
     ret locator)
    (fun error =>
       console_error ("Error waiting for element " ++ quoted selector
                      ++ " to be visible: " ++ toString error) ;;
       throw (newError (notVisibleMessage selector timeout error))).

Definition assertElementText (selector text : string) (timeout : option Z)
  : Task World unit :=
  try_catch
    (let locator := getLocator selector in
     perform (ToHaveText locator text timeout)
             (expect_toHaveText locator text timeout))
    (fun error =>
       console_error ("Error asserting text for element "
                      ++ quoted selector ++ ": " ++ toString error) ;;
       throw (newError (textMismatchMessage selector text timeout error))).

Definition clickElement (selector : string) : Task World unit :=
  try_catch
    (locator <- waitForElement selector None ;;
     perform (Click locator) (locator_click locator))
    (fun error =>
       console_error ("Error clicking element " ++ quoted selector
                      ++ ": " ++ toString error) ;;
       throw (newError (clickFailedMessage selector error))).

Definition fillField (selector value : string) : Task World unit :=
  try_catch
    (locator <- waitForElement selector None ;;
     perform (Fill locator value) (locator_fill locator value))
    (fun error =>
       console_error ("Error filling field " ++ quoted selector
                      ++ " with value " ++ quoted value ++ ": "
                      ++ toString error) ;;
       throw (newError (fillFailedMessage selector value error))).

Definition assertUrlContains (urlSubstring : string) : Task World unit :=
  try_catch
    (re <- eval (new_RegExp urlSubstring) ;;
     perform (ToHaveURL (UrlMatches re)) (expect_toHaveURL (UrlMatches re)))
    (fun error =>
       fun s =>
         let currentUrl := page_url (world s) in
         (console_error ("Error asserting URL contains "
                         ++ quoted urlSubstring ++ ". Current URL: "
                         ++ currentUrl ++ ". Error: " ++ toString error) ;;
          throw (newError (urlMismatchMessage urlSubstring currentUrl
                                              error))) s).

Definition getAllTextContents (selector : string)
  : Task World (list string) :=
  try_catch
    (let locator := getLocator selector in
     perform (AllTextContents locator) (locator_allTextContents locator))
    (fun error =>
       console_error ("Error getting text contents from elements matching "
                      ++ quoted selector ++ ": " ++ toString error) ;;
       throw (newError (textContentsFailedMessage selector error))).

End BasePage.
End BasePage.
Import BasePage.

(* ================================================================= *)
(** ** String operations of the JavaScript runtime

    A string is its sequence of code units; the model covers the code
    units below 256 (Latin-1), one [ascii] each. *)

Module JsString.

Definition code (c : ascii) : nat := nat_of_ascii c.

(** The code units that [\s] matches: TAB, LF, VT, FF, CR, SPACE and
    NO-BREAK SPACE. *)
Definition is_space (c : ascii) : bool :=
  let n := code c in
  (((9 <=? n) && (n <=? 13)) || (n =? 32) || (n =? 160))%nat.

(** The code units that [toLowerCase] changes: A-Z and the Latin-1
    capitals (all of 192..222 but the multiplication sign, 215). *)
Definition is_upper (c : ascii) : bool :=
  let n := code c in
  (((65 <=? n) && (n <=? 90))
   || ((192 <=? n) && (n <=? 222) && negb (n =? 215)))%nat.

Definition lower_unit (c : ascii) : ascii :=
  if is_upper c then ascii_of_nat (code c + 32) else c.

(** [s.toLowerCase()]. *)
Fixpoint toLowerCase (s : string) : string :=
  match s with
  | EmptyString => EmptyString
  | String c rest => String (lower_unit c) (toLowerCase rest)
  end.

(** [s.replace(/\s+/g, rep)], scanning left to right; [in_run] says that
    the code unit before [s] belongs to a match already replaced. *)
Fixpoint replace_space_runs (rep : string) (in_run : bool) (s : string)
  : string :=
  match s with
  | EmptyString => EmptyString
  | String c rest =>
      if is_space c then
        if in_run then replace_space_runs rep true rest
        else rep ++ replace_space_runs rep true rest
      else String c (replace_space_runs rep false rest)
  end.

Definition replaceAllSpaceRuns (rep s : string) : string :=
  replace_space_runs rep false s.

(** [s.replace(c, rep)] for a one-character string pattern: only the
    first occurrence is replaced. *)
Fixpoint replaceFirst (c : ascii) (rep s : string) : string :=
  match s with
  | EmptyString => EmptyString
  | String d rest =>
      if Ascii.eqb d c then rep ++ rest
      else String d (replaceFirst c rep rest)
  end.

Fixpoint list_eqb {A} (eqb : A -> A -> bool) (xs ys : list A) : bool :=
  match xs, ys with
  | [], [] => true
  | x :: xs', y :: ys' => eqb x y && list_eqb eqb xs' ys'
  | _, _ => false
  end.

End JsString.
Import JsString.

(* ================================================================= *)
(** ** Numbers

    Prices are JavaScript numbers, that is floating point.  The page
    objects only parse them, print them and compare them, so a number is
    abstract here: a type with [Object.is] (the comparison [toEqual]
    makes on numbers) as [number_eqb], with [parseFloat] and
    [toFixed(2)]. *)

Class Numbers (number : Type) : Type := {
  number_eqb : number -> number -> bool;
  parseFloat : string -> number;
  toFixed2 : number -> string
}.

(** [expect(received).toEqual(expected)] on two arrays of primitives.  It
    is synchronous and does not touch the browser.  The thrown message (a
    rendering of the difference) is abridged to its first line. *)
Definition expect_toEqual {World A} (eqb : A -> A -> bool)
    (received expected : list A) : Task World unit :=
  if list_eqb eqb received expected then ret tt
  else throw (newError "expect(received).toEqual(expected)").

(* ================================================================= *)
(** ** LoginPage *)

Module LoginPage.
Section LoginPage.
Context {World : Type} {driver : Driver World}.

Definition loginLogoSelector := ".login_logo".
Definition usernameSelector := "#user-name".
Definition passwordSelector := "#password".
Definition loginButtonSelector := "#login-button".
Definition errorMessageSelector := "[data-test=" ++ quoted "error" ++ "]".

Definition navigate : Task World unit := BasePage.navigate "/".

Definition assertLoginPage : Task World unit :=
  waitForElement loginLogoSelector None ;;
  assertElementText loginLogoSelector "Swag Labs" None.

Definition login (username password : string) : Task World unit :=
  fillField usernameSelector username ;;
  fillField passwordSelector password ;;
  clickElement loginButtonSelector.

Definition assertLoginSuccess : Task World unit :=
  assertUrlContains "inventory".

Definition assertLoginError (message : string) : Task World unit :=
  waitForElement errorMessageSelector None ;;
  assertElementText errorMessageSelector message None.

End LoginPage.
End LoginPage.

(* ================================================================= *)
(** ** InventoryPage *)

Module InventoryPage.

(** An entry of the expected list: the fields of a product fixture that
    the list verifications read. *)
Record Item (number : Type) : Type := mkItem {
  item_name : string;
  item_description : string;
  item_price : number
}.
Arguments mkItem {number} _ _ _.
Arguments item_name {number} _.
Arguments item_description {number} _.
Arguments item_price {number} _.

Section InventoryPage.
Context {World : Type} {driver : Driver World}.
Context {number : Type} {numbers : Numbers number}.

Definition titleSelector := ".title".
Definition itemNameSelector := ".inventory_item_name".
Definition searchInputSelector := "#search_container".
Definition sortDropdownSelector := ".product_sort_container".
Definition itemPriceSelector := ".inventory_item_price".
Definition backToProductsButtonSelector := "#back-to-products".
Definition itemDetailsNameSelector := ".inventory_details_name".
Definition itemDetailsDescSelector := ".inventory_details_desc".
Definition itemDetailsPriceSelector := ".inventory_details_price".
Definition itemDescriptionSelector := ".inventory_item_desc".

(** [`.inventory_item_name:has-text("${itemName}")`]. *)
Definition itemByName (itemName : string) : string :=
  ".inventory_item_name:has-text(" ++ quoted itemName ++ ")".

(** The sort orders the method's documentation lists. *)
Definition documentedSortOptions : list string :=
  ["Name (A to Z)"; "Name (Z to A)"; "Price (low to high)";
   "Price (high to low)"].

Definition assertInventoryPage : Task World unit :=
  assertElementText titleSelector "Products" None.

Definition searchItemExistsInInventory (itemName : string)
  : Task World unit :=
  let selector := itemByName itemName in
  waitForElement selector None ;; ret tt.

Definition searchItem (itemName : string) : Task World unit :=
  searchInput <- waitForElement searchInputSelector None ;;
  perform (Fill searchInput itemName) (locator_fill searchInput itemName) ;;
  perform (Press searchInput "Enter") (locator_press searchInput "Enter").

Definition assertItemInSearchResults (itemName : string)
  : Task World unit :=
  let selector := itemByName itemName in
  waitForElement selector None ;; ret tt.

Definition assertItemNotInSearchResults (itemName : string)
  : Task World unit :=
  let selector := itemByName itemName in
  let locator := getLocator selector in
  perform (NotToBeVisible locator) (expect_not_toBeVisible locator).

Definition selectProductSortOption (sortOption : string)
  : Task World unit :=
  sortDropdown <- waitForElement sortDropdownSelector None ;;
  perform (SelectOption sortDropdown sortOption)
          (locator_selectOption sortDropdown sortOption).

Definition verifyFirstItemInList (itemName : string) : Task World unit :=
  let firstItem := LocFirst (getLocator itemNameSelector) in
  perform (ToHaveText firstItem itemName None)
          (expect_toHaveText firstItem itemName None).

Definition verifyFirstItemPrice (price : number) : Task World unit :=
  let firstItemPrice := LocFirst (getLocator itemPriceSelector) in
  perform (ToHaveText firstItemPrice ("$" ++ toFixed2 price) None)
          (expect_toHaveText firstItemPrice ("$" ++ toFixed2 price) None).

Definition backToProducts : Task World unit :=
  clickElement backToProductsButtonSelector.

Definition clickOnInventoryItem (itemName : string) : Task World unit :=
  let selector := itemByName itemName in
  clickElement selector.

Definition verifyItemDetails (itemName itemDescription : string)
    (itemPrice : number) : Task World unit :=
  assertElementText itemDetailsNameSelector itemName None ;;
  assertElementText itemDetailsDescSelector itemDescription None ;;
  assertElementText itemDetailsPriceSelector ("$" ++ toFixed2 itemPrice) None.

Definition verifyItemDescriptions (expectedItems : list (Item number))
  : Task World unit :=
  itemNames <- getAllTextContents itemNameSelector ;;
  itemDescriptions <- getAllTextContents itemDescriptionSelector ;;
  expect_toEqual String.eqb itemNames (map item_name expectedItems) ;;
  expect_toEqual String.eqb itemDescriptions
                 (map item_description expectedItems).

(** [parseFloat(price.replace('$', ''))]. *)
Definition formatPrice (price : string) : number :=
  parseFloat (replaceFirst "$" EmptyString price).

Definition verifyItemPrices (expectedItems : list (Item number))
  : Task World unit :=
  itemNames <- getAllTextContents itemNameSelector ;;
  itemPrices <- getAllTextContents itemPriceSelector ;;
  let formattedPrices := map formatPrice itemPrices in
  expect_toEqual String.eqb itemNames (map item_name expectedItems) ;;
  expect_toEqual number_eqb formattedPrices (map item_price expectedItems).

End InventoryPage.
End InventoryPage.

(* ================================================================= *)
(** ** CartPage *)

Module CartPage.
Section CartPage.
Context {World : Type} {driver : Driver World}.

Definition titleSelector := ".title".
Definition cartBadgeSelector := ".shopping_cart_badge".
Definition cartLinkSelector := ".shopping_cart_link".
Definition cartItemsSelector := ".cart_item".
Definition checkoutButtonSelector := "#checkout".

(** The explicit timeout of the badge assertion, in milliseconds. *)
Definition badgeTimeout : Z := 10000.

Definition assertCartPage : Task World unit :=
  assertElementText titleSelector "Your Cart" None.

Definition assertCartItemCount (expectedItemCount : Z) : Task World unit :=
  let cartItemCount := getLocator cartBadgeSelector in
  perform
    (ToHaveText cartItemCount (numberToString expectedItemCount)
                (Some badgeTimeout))
    (expect_toHaveText cartItemCount (numberToString expectedItemCount)
                       (Some badgeTimeout)).

Definition addItemToCart (itemName : string) : Task World unit :=
  let itemSelector := ".inventory_item:has-text(" ++ quoted itemName ++ ")" in
  item <- waitForElement itemSelector None ;;
  let addToCartButton :=
    LocSub item ("button:has-text(" ++ quoted "Add to cart" ++ ")") in
  perform (ToBeVisible addToCartButton None)
          (expect_toBeVisible addToCartButton None) ;;
  perform (Click addToCartButton) (locator_click addToCartButton).

Definition goToCart : Task World unit :=
  clickElement cartLinkSelector.

Definition assertItemAdded (itemName : string) : Task World unit :=
  let itemSelector :=
    ".inventory_item_name:has-text(" ++ quoted itemName ++ ")" in
  goToCart ;;
  cartItem <- waitForElement itemSelector (Some 10000%Z) ;;
  perform (ToHaveText cartItem itemName None)
          (expect_toHaveText cartItem itemName None).

(** [itemName.toLowerCase().replace(/\s+/g, '-')]. *)
Definition formatItemName (itemName : string) : string :=
  replaceAllSpaceRuns "-" (toLowerCase itemName).

(** [`[data-test="remove-${formattedItemName}"]`]. *)
Definition removeButtonSelectorOf (itemName : string) : string :=
  "[data-test=" ++ quoted ("remove-" ++ formatItemName itemName) ++ "]".

Definition removeItem (itemName : string) : Task World unit :=
  let removeButtonSelector := removeButtonSelectorOf itemName in
  removeButton <- waitForElement removeButtonSelector None ;;
  perform (Click removeButton) (locator_click removeButton) ;;
  let locator := getLocator removeButtonSelector in
  perform (NotToBeVisible locator) (expect_not_toBeVisible locator).

Definition assertCartIsEmpty : Task World unit :=
  let cartItems := getLocator cartItemsSelector in
  perform (ToHaveCount cartItems 0) (expect_toHaveCount cartItems 0%Z).

Definition assertItemRemoved (itemName : string) : Task World unit :=
  goToCart ;;
  let itemSelector :=
    ".inventory_item_name:has-text(" ++ quoted itemName ++ ")" in
  let cartItem := getLocator itemSelector in
  perform (NotToBeVisible cartItem) (expect_not_toBeVisible cartItem) ;;
  perform (ToHaveCount cartItem 0) (expect_toHaveCount cartItem 0%Z).

Definition proceedToCheckout : Task World unit :=
  clickElement checkoutButtonSelector.

End CartPage.
End CartPage.

(* ================================================================= *)
(** ** CheckoutPage *)

Module CheckoutPage.
Section CheckoutPage.
Context {World : Type} {driver : Driver World}.
Context {number : Type} {numbers : Numbers number}.

Definition titleSelector := ".title".
Definition firstNameSelector := "#first-name".
Definition lastNameSelector := "#last-name".
Definition zipCodeSelector := "#postal-code".
Definition continueButtonSelector := "#continue".
Definition finishButtonSelector := "#finish".
Definition completeHeaderSelector := ".complete-header".
Definition completeTextSelector := ".complete-text".
Definition errorMessageSelector := ".error-message-container".
Definition itemNameSelector := ".inventory_item_name".
Definition itemPriceSelector := ".inventory_item_price".
Definition itemQuantitySelector := ".cart_quantity".

(** [const currentUrl = this.page.url(); await expect(this.page)
    .toHaveURL(currentUrl)]: the two statements that open both page
    assertions. *)
Definition expectCurrentUrl : Task World unit :=
  fun s =>
    let currentUrl := page_url (world s) in
    perform (ToHaveURL (UrlIs currentUrl))
            (expect_toHaveURL (UrlIs currentUrl)) s.

Definition assertCheckoutPage : Task World unit :=
  expectCurrentUrl ;;
  assertElementText titleSelector "Checkout: Your Information" None.

Definition assertOverviewPage : Task World unit :=
  expectCurrentUrl ;;
  assertElementText titleSelector "Checkout: Overview" None.

Definition fillCheckoutInfo (firstName lastName zip : string)
  : Task World unit :=
  fillField firstNameSelector firstName ;;
  fillField lastNameSelector lastName ;;
  fillField zipCodeSelector zip ;;
  clickElement continueButtonSelector.

Definition finishCheckout : Task World unit :=
  clickElement finishButtonSelector.

Definition assertOrderConfirmation : Task World unit :=
  assertElementText completeHeaderSelector "Thank you for your order!" None ;;
  assertElementText completeTextSelector
    "Your order has been dispatched, and will arrive just as fast as the pony can get there!"
    None.

Definition assertErrorMessage (message : string) : Task World unit :=
  assertElementText errorMessageSelector message None.

Definition assertOrderSummary (itemName : string) (itemPrice : number)
    (itemQuantity : string) : Task World unit :=
  assertElementText itemNameSelector itemName None ;;
  assertElementText itemPriceSelector ("$" ++ toFixed2 itemPrice) None ;;
  assertElementText itemQuantitySelector itemQuantity None.

End CheckoutPage.
End CheckoutPage.

(* ================================================================= *)
(** ** The variant without BasePage

    The repository also holds an earlier copy of each page object that
    calls the driver directly.  The methods below are the ones whose
    behaviour is compared with the BasePage variant. *)

Module Simple.
Section Simple.
Context {World : Type} {driver : Driver World}.

Definition InventoryPage_selectProductSortOption (sortOption : string)
  : Task World unit :=
  let sortDropdown := Loc ".product_sort_container" in
  perform (ToBeVisible sortDropdown None)
          (expect_toBeVisible sortDropdown None) ;;
  perform (SelectOption sortDropdown sortOption)
          (locator_selectOption sortDropdown sortOption).

Definition CartPage_removeItem (itemName : string) : Task World unit :=
  let formattedItemName :=
    replaceAllSpaceRuns "-" (toLowerCase itemName) in
  let removeButton :=
    Loc ("[data-test=" ++ quoted ("remove-" ++ formattedItemName) ++ "]") in
  perform (ToBeVisible removeButton None)
          (expect_toBeVisible removeButton None) ;;
  perform (Click removeButton) (locator_click removeButton) ;;
  perform (NotToBeVisible removeButton) (expect_not_toBeVisible removeButton).

Definition CheckoutPage_assertCheckoutPage : Task World unit :=
  (fun s =>
     let checkoutPageUrl := page_url (world s) in
     perform (ToHaveURL (UrlIs checkoutPageUrl))
             (expect_toHaveURL (UrlIs checkoutPageUrl)) s) ;;
  perform (ToHaveText (Loc ".title") "Checkout: Your Information" None)
          (expect_toHaveText (Loc ".title") "Checkout: Your Information" None).

Definition CheckoutPage_assertOverviewPage : Task World unit :=
  (fun s =>
     let checkoutPageUrl := page_url (world s) in
     perform (ToHaveURL (UrlIs checkoutPageUrl))
             (expect_toHaveURL (UrlIs checkoutPageUrl)) s) ;;
  perform (ToHaveText (Loc ".title") "Checkout: Overview" None)
          (expect_toHaveText (Loc ".title") "Checkout: Overview" None).

End Simple.
End Simple.

(* ================================================================= *)
(** ** Fixtures and the checkout scenarios *)

Module Fixtures.

Record Persona := mkPersona {
  firstName : string;
  lastName : string;
  zipCode : string
}.

Definition validUser := mkPersona "John" "Doe" "12345".
Definition withoutFirstNameUser := mkPersona EmptyString "Doe" "12345".
Definition withoutLastNameUser := mkPersona "John" EmptyString "12345".
Definition withoutZipCodeUser := mkPersona "John" "Doe" EmptyString.
Definition withoutAllUser :=
  mkPersona EmptyString EmptyString EmptyString.

(** The names of two products. *)
Definition backpack_name := "Sauce Labs Backpack".
Definition redTShirt_name := "Test.allTheThings() T-Shirt (Red)".

End Fixtures.

(** The bodies of the checkout tests that check a validation message
    (after [beforeEach] has brought the browser to the information form). *)
Module CheckoutTest.
Section CheckoutTest.
Context {World : Type} {driver : Driver World}.
Import Fixtures.

Definition fillAndExpectError (user : Persona) (message : string)
  : Task World unit :=
  CheckoutPage.fillCheckoutInfo (firstName user) (lastName user)
                                (zipCode user) ;;
  CheckoutPage.assertErrorMessage message.

Definition missing_first_name : Task World unit :=
  fillAndExpectError withoutFirstNameUser "Error: First Name is required".

Definition missing_last_name : Task World unit :=
  fillAndExpectError withoutLastNameUser "Error: Last Name is required".

Definition missing_zip_code : Task World unit :=
  fillAndExpectError withoutZipCodeUser "Error: Postal Code is required".

Definition empty_user : Task World unit :=
  fillAndExpectError withoutAllUser "Error: First Name is required".

End CheckoutTest.
End CheckoutTest.

(* ================================================================= *)
(** ** The calls a task issues *)

Local Open Scope list_scope.

Section Issued.
Context {World : Type}.

(** The driver calls that running [c] from [s] adds to the record. *)
Definition issued {A} (c : Task World A) (s : Session World) : list Event :=
  skipn (length (calls s)) (calls (snd (c s))).

(** The outcome of running [c] from [s]. *)
Definition outcome {A} (c : Task World A) (s : Session World) : Outcome A :=
  fst (c s).

(** [c] swallows no failure: whenever a driver call it issued threw
    [cause], [c] itself throws, and what it throws is [enrich] of the
    failed call, its cause and the session [c] ends in. *)
Definition reraises {A} (c : Task World A)
    (enrich : Op -> Error -> Session World -> Error) : Prop :=
  forall s op cause,
    In (Ev op (Some cause)) (issued c s) ->
    outcome c s = Throw (enrich op cause (snd (c s))).

(** [tr] is the beginning of [full]. *)
Definition is_prefix {A} (tr full : list A) : Prop :=
  exists rest, full = tr ++ rest.

End Issued.

(** The element a call acts on, for the calls that change the screen. *)
Definition mutates (op : Op) : option Locator :=
  match op with
  | Click l | Fill l _ | Press l _ | SelectOption l _ => Some l
  | _ => None
  end.

(** The element a call touches, for the calls that change the screen or
    read its text back to the caller. *)
Definition reads_or_mutates (op : Op) : option Locator :=
  match op with
  | AllTextContents l => Some l
  | _ => mutates op
  end.

(** Wait-then-act over a sequence of calls: every call with a target (as
    [target] tells) comes after a visibility wait on the same locator that
    succeeded.  [seen] holds the locators already waited for. *)
Fixpoint WaitFirst (target : Op -> option Locator) (seen : list Locator)
    (tr : list Event) : Prop :=
  match tr with
  | [] => True
  | Ev op threw :: rest =>
      match op with
      | ToBeVisible l _ =>
          WaitFirst target
            (match threw with None => l :: seen | Some _ => seen end) rest
      | _ =>
          match target op with
          | Some l => In l seen /\ WaitFirst target seen rest
          | None => WaitFirst target seen rest
          end
      end
  end.

(** The explicit timeout an expectation was given, if it is one. *)
Definition expectation_timeout (op : Op) : option (option Z) :=
  match op with
  | ToBeVisible _ t | ToHaveText _ _ t => Some t
  | NotToBeVisible _ | ToHaveCount _ _ | ToHaveURL _ => Some None
  | _ => None
  end.

(** Text, count and URL assertions and negative visibility checks: every
    expectation that is not a visibility wait. *)
Definition is_assertion (op : Op) : bool :=
  match op with
  | ToHaveText _ _ _ | NotToBeVisible _ | ToHaveCount _ _ | ToHaveURL _ => true
  | _ => false
  end.

(** The time an expectation may take, given the process-wide default. *)
Definition effective_timeout (default : Z) (t : option Z) : Z :=
  match t with Some n => n | None => default end.

(* ================================================================= *)
(** ** A browser showing one fixed page

    An instance of the driver on which the page objects run and compute:
    a page is its URL and its elements in document order.  Nothing on it
    changes, so an expectation holds at once or fails; elements do not
    nest, so a locator relative to another finds nothing. *)

Module StaticPage.

Record Element := mkElement {
  el_matches : list string;   (* the selectors that find the element *)
  el_text : string;
  el_visible : bool;
  el_options : list string    (* the options, for a select element *)
}.

Record Page := mkPage { url : string; dom : list Element }.

Definition matchesb (selector : string) (e : Element) : bool :=
  existsb (String.eqb selector) (el_matches e).

Fixpoint resolve (l : Locator) (p : Page) : list Element :=
  match l with
  | Loc selector => filter (matchesb selector) (dom p)
  | LocFirst l' => firstn 1 (resolve l' p)
  | LocSub _ _ => []
  end.

Definition expectFailed (matcher : string) : Error :=
  mkError "Error" ("expect(locator)." ++ matcher ++ " failed")%string.

Definition timedOut (action : string) : Error :=
  mkError "TimeoutError" ("locator." ++ action ++ ": Timeout exceeded")%string.

Definition check (b : bool) (e : Error) (p : Page) : Outcome unit * Page :=
  (if b then Ok tt else Throw e, p).

(** The one visible element the locator finds, if it finds exactly one. *)
Definition actionable (l : Locator) (p : Page) : option Element :=
  match resolve l p with
  | [e] => if el_visible e then Some e else None
  | _ => None
  end.

Definition is_some {A} (o : option A) : bool :=
  match o with Some _ => true | None => false end.

(** [s.includes(pat)]. *)
Fixpoint includes (pat s : string) : bool :=
  String.prefix pat s
  || match s with
     | EmptyString => false
     | String _ rest => includes pat rest
     end.

Definition metacharacters : list ascii :=
  list_ascii_of_string "\^$.|?*+()[]{}".

Fixpoint literal (s : string) : bool :=
  match s with
  | EmptyString => true
  | String c rest =>
      negb (existsb (Ascii.eqb c) metacharacters) && literal rest
  end.

(** Patterns without metacharacters, which match where they occur; the
    model knows no other pattern and rejects it the way the constructor
    rejects a malformed one. *)
Definition literal_RegExp (pattern : string) : Outcome RegExp :=
  if literal pattern then Ok (mkRegExp pattern)
  else Throw (mkError "SyntaxError"
                ("Invalid regular expression: /" ++ pattern ++ "/")%string).

Definition url_matches (m : UrlMatcher) (u : string) : bool :=
  match m with
  | UrlIs expected => String.eqb u expected
  | UrlMatches re => includes (source re) u
  end.

(** Modelled from the spec: the driver is an external collaborator, of
    which the repository holds only the calls.  Its operations are the
    ones the specification lists, with their documented meaning on a page
    at rest: an expectation or an action needs the one visible element its
    locator finds, and reading all texts gives the text of every element
    found, in document order, none found being the empty list. *)
#[global] Instance driver : Driver Page := {
  page_goto := fun u p => (Ok tt, mkPage u (dom p));
  page_url := url;
  expect_toBeVisible := fun l _ p =>
    check (is_some (actionable l p)) (expectFailed "toBeVisible()") p;
  expect_not_toBeVisible := fun l p =>
    check (negb (existsb el_visible (resolve l p)))
          (expectFailed "not.toBeVisible()") p;
  expect_toHaveText := fun l text _ p =>
    check (match resolve l p with
           | [e] => String.eqb (el_text e) text
           | _ => false
           end) (expectFailed "toHaveText()") p;
  expect_toHaveCount := fun l n p =>
    check (Z.of_nat (length (resolve l p)) =? n)%Z
          (expectFailed "toHaveCount()") p;
  expect_toHaveURL := fun m p =>
    check (url_matches m (url p)) (expectFailed "toHaveURL()") p;
  locator_click := fun l p =>
    check (is_some (actionable l p)) (timedOut "click") p;
  locator_fill := fun l _ p =>
    check (is_some (actionable l p)) (timedOut "fill") p;
  locator_press := fun l _ p =>
    check (is_some (actionable l p)) (timedOut "press") p;
  locator_selectOption := fun l option p =>
    check (match actionable l p with
           | Some e => existsb (String.eqb option) (el_options e)
           | None => false
           end) (timedOut "selectOption") p;
  locator_allTextContents := fun l p => (Ok (map el_text (resolve l p)), p);
  new_RegExp := literal_RegExp
}.

(** A catalogue page with two products, its sort dropdown offering the
    four orders of the application and one more. *)
Definition catalogue : Page :=
  mkPage "https://www.saucedemo.com/inventory.html"
    [ mkElement [".title"] "Products" true [];
      mkElement [".shopping_cart_link"] EmptyString true [];
      mkElement [".product_sort_container"] EmptyString true
        ["Name (A to Z)"; "Name (Z to A)"; "Price (low to high)";
         "Price (high to low)"; "Newest first"];
      mkElement
        [".inventory_item_name";
         (".inventory_item_name:has-text(" ++ quoted "Sauce Labs Backpack"
          ++ ")")%string]
        "Sauce Labs Backpack" true [];
      mkElement [".inventory_item_desc"] "carry.allTheThings()" true [];
      mkElement [".inventory_item_price"] "$29.99" true [];
      mkElement [".inventory_item_name"] "Sauce Labs Bike Light" true [];
      mkElement [".inventory_item_desc"] "A red light" true [];
      mkElement [".inventory_item_price"] "$9.99" true [];
      mkElement ["#hidden-button"] "Hidden" false [] ].

End StaticPage.

(* ================================================================= *)
(** ** The checkout information form

    The application under test is not part of the repository; its form is
    modelled as far as the checkout scenarios observe it. *)

Module CheckoutForm.

Inductive Step := InfoForm | Overview.

Record Form := mkForm {
  step : Step;
  first_name : string;
  last_name : string;
  postal_code : string;
  error : option string
}.

Definition is_empty (s : string) : bool :=
  match s with EmptyString => true | _ => false end.

(** Modelled from the spec: the validation the application runs when the
    form is submitted, which is not in the repository.  The order is
    first name, last name, postal code, and the first missing field in
    that order gives the message; the three messages are the ones the
    checkout tests expect. *)
Definition validate (f : Form) : option string :=
  if is_empty (first_name f) then Some "Error: First Name is required"
  else if is_empty (last_name f) then Some "Error: Last Name is required"
  else if is_empty (postal_code f) then Some "Error: Postal Code is required"
  else None.

(** Modelled from the spec: submitting the form stays on it and shows
    the message when a field is missing, and moves to the overview when
    none is (the state machine of the checkout page). *)
Definition submit (f : Form) : Form :=
  match validate f with
  | Some msg =>
      mkForm InfoForm (first_name f) (last_name f) (postal_code f) (Some msg)
  | None =>
      mkForm Overview (first_name f) (last_name f) (postal_code f) None
  end.

Definition title (f : Form) : string :=
  match step f with
  | InfoForm => "Checkout: Your Information"
  | Overview => "Checkout: Overview"
  end.

Definition form_url (f : Form) : string :=
  match step f with
  | InfoForm => "https://www.saucedemo.com/checkout-step-one.html"
  | Overview => "https://www.saucedemo.com/checkout-step-two.html"
  end.

(** The selectors of the elements on show. *)
Definition visible_selectors (f : Form) : list string :=
  match step f with
  | InfoForm =>
      [".title"; "#first-name"; "#last-name"; "#postal-code"; "#continue"]
      ++ match error f with
         | Some _ => [".error-message-container"]
         | None => []
         end
  | Overview => [".title"; "#finish"]
  end.

Definition visible (l : Locator) (f : Form) : bool :=
  match l with
  | Loc selector => existsb (String.eqb selector) (visible_selectors f)
  | _ => false
  end.

Definition text_of (selector : string) (f : Form) : option string :=
  if String.eqb selector ".title" then Some (title f)
  else if String.eqb selector ".error-message-container" then error f
  else None.

Definition fill (l : Locator) (value : string) (f : Form) : Form :=
  match l, step f with
  | Loc selector, InfoForm =>
      if String.eqb selector "#first-name" then
        mkForm InfoForm value (last_name f) (postal_code f) (error f)
      else if String.eqb selector "#last-name" then
        mkForm InfoForm (first_name f) value (postal_code f) (error f)
      else if String.eqb selector "#postal-code" then
        mkForm InfoForm (first_name f) (last_name f) value (error f)
      else f
  | _, _ => f
  end.

Definition click (l : Locator) (f : Form) : Form :=
  match l, step f with
  | Loc selector, InfoForm =>
      if String.eqb selector "#continue" then submit f else f
  | _, _ => f
  end.

Definition guard (b : bool) (e : Error) (f f' : Form)
  : Outcome unit * Form :=
  if b then (Ok tt, f') else (Throw e, f).

(** Modelled from the spec: the driver on the form, as far as the page
    object and the scenarios call it. *)
#[global] Instance driver : Driver Form := {
  page_goto := fun _ f => (Ok tt, f);
  page_url := form_url;
  expect_toBeVisible := fun l _ f =>
    guard (visible l f) (StaticPage.expectFailed "toBeVisible()") f f;
  expect_not_toBeVisible := fun l f =>
    guard (negb (visible l f))
          (StaticPage.expectFailed "not.toBeVisible()") f f;
  expect_toHaveText := fun l text _ f =>
    guard (match l with
           | Loc selector =>
               visible l f
               && match text_of selector f with
                  | Some t => String.eqb t text
                  | None => false
                  end
           | _ => false
           end) (StaticPage.expectFailed "toHaveText()") f f;
  expect_toHaveCount := fun l n f =>
    guard ((if visible l f then 1 else 0) =? n)%Z
          (StaticPage.expectFailed "toHaveCount()") f f;
  expect_toHaveURL := fun m f =>
    guard (StaticPage.url_matches m (form_url f))
          (StaticPage.expectFailed "toHaveURL()") f f;
  locator_click := fun l f =>
    guard (visible l f) (StaticPage.timedOut "click") f (click l f);
  locator_fill := fun l value f =>
    guard (visible l f) (StaticPage.timedOut "fill") f (fill l value f);
  locator_press := fun l _ f =>
    guard (visible l f) (StaticPage.timedOut "press") f f;
  locator_selectOption := fun l _ f =>
    guard false (StaticPage.timedOut "selectOption") f f;
  locator_allTextContents := fun l f =>
    (Ok (match l with
         | Loc selector =>
             if visible l f then
               match text_of selector f with Some t => [t] | None => [] end
             else []
         | _ => []
         end), f);
  new_RegExp := StaticPage.literal_RegExp
}.

(** The form as [beforeEach] leaves it: empty, no message. *)
Definition fresh : Form :=
  mkForm InfoForm EmptyString EmptyString EmptyString None.

End CheckoutForm.

(* ================================================================= *)
(** ** Exact decimals

    An instance of [Numbers] to run the price checks on: unsigned decimal
    amounts, [mantissa / 10 ^ scale] in lowest scale, and NaN.  It is no
    model of floating point; it serves to run the methods on sample
    pages. *)

Module Decimal.

Inductive decimal : Type :=
| NaN
| Dec (mantissa : N) (scale : nat).

Definition eqb (a b : decimal) : bool :=
  match a, b with
  | NaN, NaN => true
  | Dec m k, Dec m' k' => N.eqb m m' && Nat.eqb k k'
  | _, _ => false
  end.

Fixpoint normalise (m : N) (k : nat) : decimal :=
  match k with
  | O => Dec m 0
  | S k' => if (m mod 10 =? 0)%N then normalise (m / 10)%N k' else Dec m k
  end.

Definition digit (c : ascii) : option N :=
  let n := nat_of_ascii c in
  if ((48 <=? n) && (n <=? 57))%nat then Some (N.of_nat (n - 48)) else None.

(** Reads the digits at the head of [s] onto [acc]: the number read, how
    many digits it took, and what follows them. *)
Fixpoint digits (s : string) (acc : N) (count : nat) : N * nat * string :=
  match s with
  | EmptyString => (acc, count, s)
  | String c rest =>
      match digit c with
      | Some d => digits rest (acc * 10 + d)%N (S count)
      | None => (acc, count, s)
      end
  end.

Definition parse (s : string) : decimal :=
  let '(whole, n1, rest) := digits s 0%N 0 in
  match rest with
  | String "." fraction =>
      let '(m, n2, _) := digits fraction whole 0 in
      if (n1 + n2 =? 0)%nat then NaN else normalise m n2
  | _ => if (n1 =? 0)%nat then NaN else Dec whole 0
  end.

Definition two_digits (n : N) : string :=
  ((if (n <? 10)%N then "0" else EmptyString)
   ++ NilZero.string_of_uint (N.to_uint n))%string.

(** Two decimals, rounding half up. *)
Definition print2 (d : decimal) : string :=
  match d with
  | NaN => "NaN"
  | Dec m k =>
      let hundredths := ((m * 1000 / 10 ^ N.of_nat k + 5) / 10)%N in
      (NilZero.string_of_uint (N.to_uint (hundredths / 100)) ++ "."
       ++ two_digits (hundredths mod 100))%string
  end.

#[global] Instance numbers : Numbers decimal := {
  number_eqb := eqb;
  parseFloat := parse;
  toFixed2 := print2
}.

End Decimal.

(* ================================================================= *)
(** ** The methods of the page objects, as data

    One constructor for each method a scenario can call on LoginPage,
    InventoryPage, CartPage and CheckoutPage, so that a statement can
    range over all of them. *)

Module Api.

Inductive Method (number : Type) : Type :=
| Login_navigate
| Login_assertLoginPage
| Login_login (username password : string)
| Login_assertLoginSuccess
| Login_assertLoginError (message : string)
| Inventory_assertInventoryPage
| Inventory_searchItemExistsInInventory (itemName : string)
| Inventory_searchItem (itemName : string)
| Inventory_assertItemInSearchResults (itemName : string)
| Inventory_assertItemNotInSearchResults (itemName : string)
| Inventory_selectProductSortOption (sortOption : string)
| Inventory_verifyFirstItemInList (itemName : string)
| Inventory_verifyFirstItemPrice (price : number)
| Inventory_backToProducts
| Inventory_clickOnInventoryItem (itemName : string)
| Inventory_verifyItemDetails (itemName itemDescription : string)
    (itemPrice : number)
| Inventory_verifyItemDescriptions
    (expectedItems : list (InventoryPage.Item number))
| Inventory_verifyItemPrices
    (expectedItems : list (InventoryPage.Item number))
| Cart_assertCartPage
| Cart_assertCartItemCount (expectedItemCount : Z)
| Cart_addItemToCart (itemName : string)
| Cart_goToCart
| Cart_assertItemAdded (itemName : string)
| Cart_removeItem (itemName : string)
| Cart_assertCartIsEmpty
| Cart_assertItemRemoved (itemName : string)
| Cart_proceedToCheckout
| Checkout_assertCheckoutPage
| Checkout_assertOverviewPage
| Checkout_fillCheckoutInfo (firstName lastName zip : string)
| Checkout_finishCheckout
| Checkout_assertOrderConfirmation
| Checkout_assertErrorMessage (message : string)
| Checkout_assertOrderSummary (itemName : string) (itemPrice : number)
    (itemQuantity : string).

Definition is_assertCartItemCount {number} (m : Method number) : bool :=
  match m with Cart_assertCartItemCount _ _ => true | _ => false end.

Section Invoke.
Context {World : Type} {driver : Driver World}.
Context {number : Type} {numbers : Numbers number}.

Definition invoke (m : Method number) : Task World unit :=
  match m with
  | Login_navigate _ => LoginPage.navigate
  | Login_assertLoginPage _ => LoginPage.assertLoginPage
  | Login_login _ u p => LoginPage.login u p
  | Login_assertLoginSuccess _ => LoginPage.assertLoginSuccess
  | Login_assertLoginError _ msg => LoginPage.assertLoginError msg
  | Inventory_assertInventoryPage _ => InventoryPage.assertInventoryPage
  | Inventory_searchItemExistsInInventory _ n =>
      InventoryPage.searchItemExistsInInventory n
  | Inventory_searchItem _ n => InventoryPage.searchItem n
  | Inventory_assertItemInSearchResults _ n =>
      InventoryPage.assertItemInSearchResults n
  | Inventory_assertItemNotInSearchResults _ n =>
      InventoryPage.assertItemNotInSearchResults n
  | Inventory_selectProductSortOption _ o =>
      InventoryPage.selectProductSortOption o
  | Inventory_verifyFirstItemInList _ n =>
      InventoryPage.verifyFirstItemInList n
  | Inventory_verifyFirstItemPrice _ p => InventoryPage.verifyFirstItemPrice p
  | Inventory_backToProducts _ => InventoryPage.backToProducts
  | Inventory_clickOnInventoryItem _ n => InventoryPage.clickOnInventoryItem n
  | Inventory_verifyItemDetails _ n d p => InventoryPage.verifyItemDetails n d p
  | Inventory_verifyItemDescriptions _ items =>
      InventoryPage.verifyItemDescriptions items
  | Inventory_verifyItemPrices _ items => InventoryPage.verifyItemPrices items
  | Cart_assertCartPage _ => CartPage.assertCartPage
  | Cart_assertCartItemCount _ n => CartPage.assertCartItemCount n
  | Cart_addItemToCart _ n => CartPage.addItemToCart n
  | Cart_goToCart _ => CartPage.goToCart
  | Cart_assertItemAdded _ n => CartPage.assertItemAdded n
  | Cart_removeItem _ n => CartPage.removeItem n
  | Cart_assertCartIsEmpty _ => CartPage.assertCartIsEmpty
  | Cart_assertItemRemoved _ n => CartPage.assertItemRemoved n
  | Cart_proceedToCheckout _ => CartPage.proceedToCheckout
  | Checkout_assertCheckoutPage _ => CheckoutPage.assertCheckoutPage
  | Checkout_assertOverviewPage _ => CheckoutPage.assertOverviewPage
  | Checkout_fillCheckoutInfo _ f l z => CheckoutPage.fillCheckoutInfo f l z
  | Checkout_finishCheckout _ => CheckoutPage.finishCheckout
  | Checkout_assertOrderConfirmation _ => CheckoutPage.assertOrderConfirmation
  | Checkout_assertErrorMessage _ msg => CheckoutPage.assertErrorMessage msg
  | Checkout_assertOrderSummary _ n p q => CheckoutPage.assertOrderSummary n p q
  end.

End Invoke.
End Api.

(* ================================================================= *)
(** ** The specification's words, for comparison with the code *)

(** The names the specification gives to the failures of the layer.  An
    error shows its kind to the caller as its [name]. *)
Module Taxonomy.
Definition ElementNotVisible : string := "ElementNotVisible".
Definition ActionFailure : string := "ActionFailure".
Definition InvalidOption : string := "InvalidOption".
End Taxonomy.

(** Replacing each maximal run of whitespace, said with runs: cut the
    string into its maximal runs of whitespace and of other characters,
    and put the replacement in place of each whitespace run. *)
Module Runs.

(** The maximal runs of [s], in order; the flag tells a whitespace run. *)
Fixpoint runs (s : string) : list (bool * string) :=
  match s with
  | EmptyString => []
  | String c rest =>
      match runs rest with
      | (sp, r) :: tl =>
          if Bool.eqb sp (is_space c) then (sp, String c r) :: tl
          else (is_space c, String c EmptyString) :: (sp, r) :: tl
      | [] => [(is_space c, String c EmptyString)]
      end
  end.

Fixpoint join (l : list string) : string :=
  match l with
  | [] => EmptyString
  | x :: rest => (x ++ join rest)%string
  end.

(** What a run becomes. *)
Definition render (rep : string) (run : bool * string) : string :=
  if fst run then rep else snd run.

Definition replace_each_space_run (rep s : string) : string :=
  join (map (render rep) (runs s)).

(** No two neighbours are of the same kind: the runs are maximal. *)
Fixpoint alternate (l : list (bool * string)) : bool :=
  match l with
  | a :: (b :: _) as tl => negb (Bool.eqb (fst a) (fst b)) && alternate tl
  | _ => true
  end.

(** Every character of a run is of the run's kind, and no run is empty. *)
Fixpoint uniform (sp : bool) (r : string) : bool :=
  match r with
  | EmptyString => true
  | String c rest => Bool.eqb (is_space c) sp && uniform sp rest
  end.

Definition well_formed_run (run : bool * string) : bool :=
  uniform (fst run) (snd run)
  && negb (String.eqb (snd run) EmptyString).

End Runs.

(* ================================================================= *)
(** ** Sample data *)

Module Examples.

(** The two products of [StaticPage.catalogue], as a test would expect
    them. *)
Definition catalogueItems : list (InventoryPage.Item Decimal.decimal) :=
  [ InventoryPage.mkItem "Sauce Labs Backpack" "carry.allTheThings()"
      (Decimal.Dec 2999 2);
    InventoryPage.mkItem "Sauce Labs Bike Light" "A red light"
      (Decimal.Dec 999 2) ].

(** The same with the second price wrong. *)
Definition mispricedItems : list (InventoryPage.Item Decimal.decimal) :=
  [ InventoryPage.mkItem "Sauce Labs Backpack" "carry.allTheThings()"
      (Decimal.Dec 2999 2);
    InventoryPage.mkItem "Sauce Labs Bike Light" "A red light"
      (Decimal.Dec 1099 2) ].

(** The calls of a checkout form filled and submitted without a
    failure. *)
Definition filledAndSubmitted (firstName lastName zip : string) : list Op :=
  [ ToBeVisible (Loc "#first-name") None; Fill (Loc "#first-name") firstName;
    ToBeVisible (Loc "#last-name") None; Fill (Loc "#last-name") lastName;
    ToBeVisible (Loc "#postal-code") None; Fill (Loc "#postal-code") zip;
    ToBeVisible (Loc "#continue") None; Click (Loc "#continue") ].

End Examples.

(* ================================================================= *)
(** ** The rest of the variant without BasePage

    The other methods of the earlier copies of InventoryPage, CartPage,
    CheckoutPage and LoginPage, which call the driver's locators and
    expectations directly, with no try and catch. *)

Module Direct.
Section Direct.
Context {World : Type} {driver : Driver World}.
Context {number : Type} {numbers : Numbers number}.

(** [await expect(l).toBeVisible()] and its like, as tasks. *)
Definition toBeVisible (l : Locator) (timeout : option Z) : Task World unit :=
  perform (ToBeVisible l timeout) (expect_toBeVisible l timeout).

Definition notToBeVisible (l : Locator) : Task World unit :=
  perform (NotToBeVisible l) (expect_not_toBeVisible l).

Definition toHaveText (l : Locator) (text : string) : Task World unit :=
  perform (ToHaveText l text None) (expect_toHaveText l text None).

Definition toHaveCount (l : Locator) (n : Z) : Task World unit :=
  perform (ToHaveCount l n) (expect_toHaveCount l n).

Definition click (l : Locator) : Task World unit :=
  perform (Click l) (locator_click l).

Definition fill (l : Locator) (value : string) : Task World unit :=
  perform (Fill l value) (locator_fill l value).

Definition allTextContents (l : Locator) : Task World (list string) :=
  perform (AllTextContents l) (locator_allTextContents l).

(** *** InventoryPage *)

Definition Inventory_assertInventoryPage : Task World unit :=
  let titleElement := Loc ".title" in
  toHaveText titleElement "Products".

Definition Inventory_searchItemExistsInInventory (itemName : string)
  : Task World unit :=
  let item := Loc (InventoryPage.itemByName itemName) in
  toBeVisible item None.

Definition Inventory_searchItem (itemName : string) : Task World unit :=
  let searchInput := Loc "#search_container" in
  toBeVisible searchInput None ;;
  fill searchInput itemName ;;
  perform (Press searchInput "Enter") (locator_press searchInput "Enter").

Definition Inventory_assertItemInSearchResults (itemName : string)
  : Task World unit :=
  let item := Loc (InventoryPage.itemByName itemName) in
  toBeVisible item None.

Definition Inventory_assertItemNotInSearchResults (itemName : string)
  : Task World unit :=
  let item := Loc (InventoryPage.itemByName itemName) in
  notToBeVisible item.

Definition Inventory_verifyFirstItemInList (itemName : string)
  : Task World unit :=
  let firstItem := LocFirst (Loc ".inventory_item_name") in
  toHaveText firstItem itemName.

Definition Inventory_verifyFirstItemPrice (price : number)
  : Task World unit :=
  let firstItemPrice := LocFirst (Loc ".inventory_item_price") in
  toHaveText firstItemPrice ("$" ++ toFixed2 price).

Definition Inventory_backToProducts : Task World unit :=
  let backToProductsButton := Loc "#back-to-products" in
  toBeVisible backToProductsButton None ;;
  click backToProductsButton.

Definition Inventory_clickOnInventoryItem (itemName : string)
  : Task World unit :=
  let item := Loc (InventoryPage.itemByName itemName) in
  toBeVisible item None ;;
  click item.

Definition Inventory_verifyItemDetails (itemName itemDescription : string)
    (itemPrice : number) : Task World unit :=
  let itemNameElement := Loc ".inventory_details_name" in
  let itemDescriptionElement := Loc ".inventory_details_desc" in
  let itemPriceElement := Loc ".inventory_details_price" in
  toHaveText itemNameElement itemName ;;
  toHaveText itemDescriptionElement itemDescription ;;
  toHaveText itemPriceElement ("$" ++ toFixed2 itemPrice).

Definition Inventory_verifyItemDescriptions
    (expectedItems : list (InventoryPage.Item number)) : Task World unit :=
  itemNames <- allTextContents (Loc ".inventory_item_name") ;;
  itemDescriptions <- allTextContents (Loc ".inventory_item_desc") ;;
  expect_toEqual String.eqb itemNames
                 (map InventoryPage.item_name expectedItems) ;;
  expect_toEqual String.eqb itemDescriptions
                 (map InventoryPage.item_description expectedItems).

Definition Inventory_verifyItemPrices
    (expectedItems : list (InventoryPage.Item number)) : Task World unit :=
  itemNames <- allTextContents (Loc ".inventory_item_name") ;;
  itemPrices <- allTextContents (Loc ".inventory_item_price") ;;
  let formattedPrices :=
    map (fun price => parseFloat (replaceFirst "$" EmptyString price))
        itemPrices in
  expect_toEqual String.eqb itemNames
                 (map InventoryPage.item_name expectedItems) ;;
  expect_toEqual number_eqb formattedPrices
                 (map InventoryPage.item_price expectedItems).

(** *** CartPage *)

Definition Cart_assertCartPage : Task World unit :=
  let titleElement := Loc ".title" in
  toHaveText titleElement "Your Cart".

Definition Cart_assertCartItemCount (expectedItemCount : Z)
  : Task World unit :=
  let cartItemCount := Loc ".shopping_cart_badge" in
  perform
    (ToHaveText cartItemCount (numberToString expectedItemCount)
                (Some 10000%Z))
    (expect_toHaveText cartItemCount (numberToString expectedItemCount)
                       (Some 10000%Z)).

Definition Cart_addItemToCart (itemName : string) : Task World unit :=
  let item := Loc (".inventory_item:has-text(" ++ quoted itemName ++ ")") in
  let addToCartButton :=
    LocSub item ("button:has-text(" ++ quoted "Add to cart" ++ ")") in
  toBeVisible item None ;;
  toBeVisible addToCartButton None ;;
  click addToCartButton.

Definition Cart_goToCart : Task World unit :=
  let cartLink := Loc ".shopping_cart_link" in
  toBeVisible cartLink None ;;
  click cartLink.

Definition Cart_assertItemAdded (itemName : string) : Task World unit :=
  let cartItem :=
    Loc (".inventory_item_name:has-text(" ++ quoted itemName ++ ")") in
  Cart_goToCart ;;
  toBeVisible cartItem (Some 10000%Z) ;;
  toHaveText cartItem itemName.

Definition Cart_assertCartIsEmpty : Task World unit :=
  let cartItems := Loc ".cart_item" in
  toHaveCount cartItems 0.

Definition Cart_assertItemRemoved (itemName : string) : Task World unit :=
  Cart_goToCart ;;
  let cartItem :=
    Loc (".inventory_item_name:has-text(" ++ quoted itemName ++ ")") in
  notToBeVisible cartItem ;;
  toHaveCount cartItem 0.

Definition Cart_proceedToCheckout : Task World unit :=
  let checkoutButton := Loc "#checkout" in
  toBeVisible checkoutButton None ;;
  click checkoutButton.

(** *** CheckoutPage *)

Definition Checkout_fillCheckoutInfo (firstName lastName zip : string)
  : Task World unit :=
  let firstNameField := Loc "#first-name" in
  let lastNameField := Loc "#last-name" in
  let zipField := Loc "#postal-code" in
  let continueButton := Loc "#continue" in
  fill firstNameField firstName ;;
  fill lastNameField lastName ;;
  fill zipField zip ;;
  click continueButton.

Definition Checkout_finishCheckout : Task World unit :=
  let finishButton := Loc "#finish" in
  click finishButton.

Definition Checkout_assertOrderConfirmation : Task World unit :=
  let completeHeader := Loc ".complete-header" in
  let completeText := Loc ".complete-text" in
  toHaveText completeHeader "Thank you for your order!" ;;
  toHaveText completeText
    "Your order has been dispatched, and will arrive just as fast as the pony can get there!".

Definition Checkout_assertErrorMessage (message : string)
  : Task World unit :=
  let errorMessage := Loc ".error-message-container" in
  toHaveText errorMessage message.

Definition Checkout_assertOrderSummary (itemName : string)
    (itemPrice : number) (itemQuantity : string) : Task World unit :=
  let itemNameElement := Loc ".inventory_item_name" in
  let itemPriceElement := Loc ".inventory_item_price" in
  let itemQuantityElement := Loc ".cart_quantity" in
  toHaveText itemNameElement itemName ;;
  toHaveText itemPriceElement ("$" ++ toFixed2 itemPrice) ;;
  toHaveText itemQuantityElement itemQuantity.

(** *** LoginPage ([login], which fills and clicks through the page and
    not through a locator, is left out) *)

Definition Login_navigate : Task World unit :=
  perform (Goto "/") (page_goto "/").

Definition Login_assertLoginPage : Task World unit :=
  let loginLogo := Loc ".login_logo" in
  toBeVisible loginLogo None ;;
  toHaveText loginLogo "Swag Labs".

Definition Login_assertLoginError (message : string) : Task World unit :=
  let errorMessage := Loc ("[data-test=" ++ quoted "error" ++ "]") in
  toBeVisible errorMessage None ;;
  toHaveText errorMessage message.

(** The method of this variant that stands for a method of the BasePage
    variant, where the two are comparable: [login] is left out, and so is
    [assertLoginSuccess], whose pattern is a literal here and is built by
    the RegExp constructor there. *)
Definition counterpart (m : Api.Method number) : option (Task World unit) :=
  match m with
  | Api.Login_navigate _ => Some Login_navigate
  | Api.Login_assertLoginPage _ => Some Login_assertLoginPage
  | Api.Login_login _ _ _ => None
  | Api.Login_assertLoginSuccess _ => None
  | Api.Login_assertLoginError _ msg => Some (Login_assertLoginError msg)
  | Api.Inventory_assertInventoryPage _ => Some Inventory_assertInventoryPage
  | Api.Inventory_searchItemExistsInInventory _ n =>
      Some (Inventory_searchItemExistsInInventory n)
  | Api.Inventory_searchItem _ n => Some (Inventory_searchItem n)
  | Api.Inventory_assertItemInSearchResults _ n =>
      Some (Inventory_assertItemInSearchResults n)
  | Api.Inventory_assertItemNotInSearchResults _ n =>
      Some (Inventory_assertItemNotInSearchResults n)
  | Api.Inventory_selectProductSortOption _ o =>
      Some (Simple.InventoryPage_selectProductSortOption o)
  | Api.Inventory_verifyFirstItemInList _ n =>
      Some (Inventory_verifyFirstItemInList n)
  | Api.Inventory_verifyFirstItemPrice _ p =>
      Some (Inventory_verifyFirstItemPrice p)
  | Api.Inventory_backToProducts _ => Some Inventory_backToProducts
  | Api.Inventory_clickOnInventoryItem _ n =>
      Some (Inventory_clickOnInventoryItem n)
  | Api.Inventory_verifyItemDetails _ n d p =>
      Some (Inventory_verifyItemDetails n d p)
  | Api.Inventory_verifyItemDescriptions _ items =>
      Some (Inventory_verifyItemDescriptions items)
  | Api.Inventory_verifyItemPrices _ items =>
      Some (Inventory_verifyItemPrices items)
  | Api.Cart_assertCartPage _ => Some Cart_assertCartPage
  | Api.Cart_assertCartItemCount _ n => Some (Cart_assertCartItemCount n)
  | Api.Cart_addItemToCart _ n => Some (Cart_addItemToCart n)
  | Api.Cart_goToCart _ => Some Cart_goToCart
  | Api.Cart_assertItemAdded _ n => Some (Cart_assertItemAdded n)
  | Api.Cart_removeItem _ n => Some (Simple.CartPage_removeItem n)
  | Api.Cart_assertCartIsEmpty _ => Some Cart_assertCartIsEmpty
  | Api.Cart_assertItemRemoved _ n => Some (Cart_assertItemRemoved n)
  | Api.Cart_proceedToCheckout _ => Some Cart_proceedToCheckout
  | Api.Checkout_assertCheckoutPage _ =>
      Some Simple.CheckoutPage_assertCheckoutPage
  | Api.Checkout_assertOverviewPage _ =>
      Some Simple.CheckoutPage_assertOverviewPage
  | Api.Checkout_fillCheckoutInfo _ f l z =>
      Some (Checkout_fillCheckoutInfo f l z)
  | Api.Checkout_finishCheckout _ => Some Checkout_finishCheckout
  | Api.Checkout_assertOrderConfirmation _ =>
      Some Checkout_assertOrderConfirmation
  | Api.Checkout_assertErrorMessage _ msg =>
      Some (Checkout_assertErrorMessage msg)
  | Api.Checkout_assertOrderSummary _ n p q =>
      Some (Checkout_assertOrderSummary n p q)
  end.

End Direct.

(** The methods that, in this variant, act without a visibility wait. *)
Definition acts_unguarded {number} (m : Api.Method number) : bool :=
  match m with
  | Api.Checkout_fillCheckoutInfo _ _ _ _
  | Api.Checkout_finishCheckout _ => true
  | _ => false
  end.

End Direct.

(** A sequence of calls in which only the last can have failed. *)
Fixpoint only_last_fails (tr : list Event) : Prop :=
  match tr with
  | [] => True
  | e :: rest =>
      match rest with
      | [] => True
      | _ :: _ => ev_thrown e = None /\ only_last_fails rest
      end
  end.

(** Every code unit of [s] passes [p]. *)
Fixpoint string_forall (p : ascii -> bool) (s : string) : bool :=
  match s with
  | EmptyString => true
  | String c rest => p c && string_forall p rest
  end.

(** The calls of a login without a failure. *)
Definition loggedIn (username password : string) : list Op :=
  [ ToBeVisible (Loc "#user-name") None; Fill (Loc "#user-name") username;
    ToBeVisible (Loc "#password") None; Fill (Loc "#password") password;
    ToBeVisible (Loc "#login-button") None; Click (Loc "#login-button") ].

(** [s.includes(c)] for a one-character string. *)
Fixpoint occurs (c : ascii) (s : string) : bool :=
  match s with
  | EmptyString => false
  | String d rest => Ascii.eqb d c || occurs c rest
  end.

(* ================================================================= *)
(** ** Regular expressions

    Patterns as far as the helpers use them: character classes, sequence,
    alternative and repetition.  [test] on a pattern between [^] and [$]
    asks whether the whole string is in the language of the pattern; it
    is computed with derivatives. *)

Module Regex.

Inductive re : Type :=
| Void
| Empty
| Class (p : ascii -> bool)
| Seq (r1 r2 : re)
| Alt (r1 r2 : re)
| Star (r : re).

(** [r+]. *)
Definition Plus (r : re) : re := Seq r (Star r).

Fixpoint nullable (r : re) : bool :=
  match r with
  | Void => false
  | Empty => true
  | Class _ => false
  | Seq r1 r2 => nullable r1 && nullable r2
  | Alt r1 r2 => nullable r1 || nullable r2
  | Star _ => true
  end.

(** What is left of [r] to match after the code unit [c]. *)
Fixpoint derive (c : ascii) (r : re) : re :=
  match r with
  | Void => Void
  | Empty => Void
  | Class p => if p c then Empty else Void
  | Seq r1 r2 =>
      if nullable r1 then Alt (Seq (derive c r1) r2) (derive c r2)
      else Seq (derive c r1) r2
  | Alt r1 r2 => Alt (derive c r1) (derive c r2)
  | Star r' => Seq (derive c r') (Star r')
  end.

(** [/^r$/.test(s)]. *)
Fixpoint test (r : re) (s : string) : bool :=
  match s with
  | EmptyString => nullable r
  | String c rest => test (derive c r) rest
  end.

(** The language of a pattern. *)
Inductive denotes : re -> string -> Prop :=
| denotes_empty : denotes Empty EmptyString
| denotes_class p c : p c = true -> denotes (Class p) (String c EmptyString)
| denotes_seq r1 r2 s1 s2 :
    denotes r1 s1 -> denotes r2 s2 -> denotes (Seq r1 r2) (s1 ++ s2)%string
| denotes_alt_l r1 r2 s : denotes r1 s -> denotes (Alt r1 r2) s
| denotes_alt_r r1 r2 s : denotes r2 s -> denotes (Alt r1 r2) s
| denotes_star_nil r : denotes (Star r) EmptyString
| denotes_star_cons r s1 s2 :
    denotes r s1 -> denotes (Star r) s2 -> denotes (Star r) (s1 ++ s2)%string.

End Regex.

(* ================================================================= *)
(** ** The helpers

    The functions of the utilities whose values are strings, integers and
    arrays.  A number that is a length, an index or a size is an integer
    here. *)

Module Helpers.

(** How [slice] reads an index: a negative one counts from the end, and
    the result is kept within the length. *)
Definition relative_index (len i : Z) : Z :=
  if (i <? 0)%Z then Z.max (len + i) 0 else Z.min i len.

(** [s.slice(start, end)] on a string. *)
Definition string_slice (s : string) (start end_ : Z) : string :=
  let len := Z.of_nat (String.length s) in
  let from := relative_index len start in
  let to := relative_index len end_ in
  substring (Z.to_nat from) (Z.to_nat (to - from)) s.

(** [a.slice(start, end)] on an array. *)
Definition array_slice {T : Type} (a : list T) (start end_ : Z) : list T :=
  let len := Z.of_nat (length a) in
  let from := relative_index len start in
  let to := relative_index len end_ in
  firstn (Z.to_nat (to - from)) (skipn (Z.to_nat from) a).

Definition truncate (text : string) (maxLength : Z) : string :=
  if (Z.of_nat (String.length text) <=? maxLength)%Z then text
  else (string_slice text 0 maxLength ++ "...")%string.

Section Arrays.
Context {T : Type}.

(** [same] is the comparison a Set makes of two values (SameValueZero). *)
Variable same : T -> T -> bool.

(** [set.add(x)], the set being its elements in insertion order. *)
Definition set_add (set : list T) (x : T) : list T :=
  if existsb (same x) set then set else set ++ [x].

(** [new Set(iterable)]. *)
Definition new_Set (iterable : list T) : list T :=
  fold_left set_add iterable [].

(** [Array.from(new Set(array))]: the elements in insertion order. *)
Definition removeDuplicates (array : list T) : list T := new_Set array.

(** The loop of [chunkArray], from index [i] with [result] so far; it
    runs as long as [fuel] lasts, [None] being a loop still running. *)
Fixpoint chunk_loop (fuel : nat) (array : list T) (size i : Z)
    (result : list (list T)) : option (list (list T)) :=
  match fuel with
  | O => None
  | S fuel' =>
      if (i <? Z.of_nat (length array))%Z then
        chunk_loop fuel' array size (i + size)%Z
                   (result ++ [array_slice array i (i + size)])
      else Some result
  end.

Definition chunkArray (fuel : nat) (array : list T) (size : Z)
  : option (list (list T)) :=
  chunk_loop fuel array size 0 [].

End Arrays.

(** All chunks but the last are [size] long, and the last is not empty
    and no longer. *)
Fixpoint full_but_last {T : Type} (size : nat) (chunks : list (list T))
  : Prop :=
  match chunks with
  | [] => True
  | c :: rest =>
      match rest with
      | [] => (1 <= length c <= size)%nat
      | _ :: _ => length c = size /\ full_but_last size rest
      end
  end.

(** A date as its local calendar fields: what [getDate], [getMonth] and
    [getFullYear] return, the month counted from 0. *)
Record Date := mkDate { getDate : Z; getMonth : Z; getFullYear : Z }.

Fixpoint repeat_unit (c : ascii) (n : nat) : string :=
  match n with
  | O => EmptyString
  | S n' => String c (repeat_unit c n')
  end.

(** [s.padStart(targetLength, c)] for a one-character pad string. *)
Definition padStart (targetLength : nat) (c : ascii) (s : string) : string :=
  (repeat_unit c (targetLength - String.length s) ++ s)%string.

Definition formatDate (date : Date) : string :=
  let day := padStart 2 "0" (numberToString (getDate date)) in
  let month := padStart 2 "0" (numberToString (getMonth date + 1)) in
  let year := getFullYear date in
  (day ++ "/" ++ month ++ "/" ++ numberToString year)%string.

(** The fields of a date that exists: a day of the month from 1 to 31 and
    a month from 0 to 11. *)
Definition calendar_fields (date : Date) : Prop :=
  (1 <= getDate date <= 31)%Z /\ (0 <= getMonth date <= 11)%Z.

(** The decimal digit of [k], as a code unit. *)
Definition digit_unit (k : Z) : ascii := ascii_of_nat (48 + Z.to_nat k).

(** [[^\s@]]. *)
Definition not_space_nor_at (c : ascii) : bool :=
  negb (is_space c) && negb (Ascii.eqb c "@").

(** [/^[^\s@]+@[^\s@]+\.[^\s@]+$/]. *)
Definition emailRegex : Regex.re :=
  Regex.Seq (Regex.Plus (Regex.Class not_space_nor_at))
    (Regex.Seq (Regex.Class (fun c => Ascii.eqb c "@"))
       (Regex.Seq (Regex.Plus (Regex.Class not_space_nor_at))
          (Regex.Seq (Regex.Class (fun c => Ascii.eqb c "."))
             (Regex.Plus (Regex.Class not_space_nor_at))))).

Definition isValidEmail (email : string) : bool :=
  Regex.test emailRegex email.

(** How many times the code unit [c] stands in [s]. *)
Fixpoint count_unit (c : ascii) (s : string) : nat :=
  match s with
  | EmptyString => O
  | String d rest => (if Ascii.eqb d c then 1 else 0) + count_unit c rest
  end.

End Helpers.

(* ================================================================= *)
(** * Properties *)

(* ================================================================= *)
(** ** Strings *)

Section StringFacts.
Import Runs.

Lemma append_empty (s : string) : (s ++ EmptyString)%string = s.
Proof. induction s; simpl; congruence. Qed.

Lemma runs_join (s : string) : join (map snd (runs s)) = s.
Proof.
  induction s as [|c rest IH]; simpl; [reflexivity|].
  destruct (runs rest) as [|[sp r] tl] eqn:E.
  - simpl in *. now rewrite <- IH.
  - destruct (Bool.eqb sp (is_space c)); simpl in *; now rewrite <- IH.
Qed.

Lemma runs_alternate (s : string) : alternate (runs s) = true.
Proof.
  induction s as [|c rest IH]; simpl; [reflexivity|].
  destruct (runs rest) as [|[sp r] tl] eqn:E; [reflexivity|].
  destruct (Bool.eqb sp (is_space c)) eqn:Eq.
  - exact IH.
  - change (negb (Bool.eqb (is_space c) sp)
            && alternate ((sp, r) :: tl) = true).
    rewrite IH, andb_true_r.
    destruct sp, (is_space c); simpl in *; congruence.
Qed.

Lemma runs_well_formed (s : string) :
  forallb well_formed_run (runs s) = true.
Proof.
  induction s as [|c rest IH]; simpl; [reflexivity|].
  destruct (runs rest) as [|[sp r] tl] eqn:E.
  - simpl. unfold well_formed_run; simpl.
    now rewrite Bool.eqb_reflx.
  - destruct (Bool.eqb sp (is_space c)) eqn:Eq; simpl in *.
    + apply andb_true_iff in IH as [Hr Htl]. rewrite Htl, andb_true_r.
      unfold well_formed_run in *; simpl in *.
      apply andb_true_iff in Hr as [Hu _]. rewrite Hu.
      apply Bool.eqb_prop in Eq. subst sp.
      now rewrite Bool.eqb_reflx.
    + rewrite IH, andb_true_r. unfold well_formed_run; simpl.
      now rewrite Bool.eqb_reflx.
Qed.

(** The scanning replacement of the code, told with the runs of the
    string: a leading whitespace run continues the match in progress
    when there is one. *)
Lemma replace_space_runs_runs (rep s : string) (in_run : bool) :
  replace_space_runs rep in_run s
  = match runs s with
    | (true, _) :: tl =>
        ((if in_run then EmptyString else rep)
         ++ join (map (render rep) tl))%string
    | l => join (map (render rep) l)
    end.
Proof.
  revert in_run.
  induction s as [|c rest IH]; intro in_run; simpl; [reflexivity|].
  destruct (is_space c) eqn:Ec.
  - assert (IHt := IH true).
    destruct (runs rest) as [|[[|] r] tl] eqn:E; simpl in *.
    + destruct in_run; rewrite IHt; simpl; auto using append_empty.
    + destruct in_run; rewrite IHt; reflexivity.
    + destruct in_run; rewrite IHt; reflexivity.
  - rewrite (IH false).
    destruct (runs rest) as [|[[|] r] tl] eqn:E; simpl in *; reflexivity.
Qed.

End StringFacts.

(* ================================================================= *)
(** ** Running a task by hand *)

Lemma skipn_length_app {A} (a b : list A) : skipn (length a) (a ++ b) = b.
Proof. induction a; simpl; auto. Qed.

Lemma issued_of {World A} (c : Task World A) (s : Session World) tr :
  calls (snd (c s)) = calls s ++ tr -> issued c s = tr.
Proof. unfold issued. intros ->. apply skipn_length_app. Qed.

(** Unfold the page objects down to the driver calls.  A method comes
    before the methods it calls. *)
Ltac unfold_methods :=
  unfold Api.invoke,
    CheckoutTest.missing_first_name, CheckoutTest.missing_last_name,
    CheckoutTest.missing_zip_code, CheckoutTest.empty_user,
    CheckoutTest.fillAndExpectError,
    LoginPage.navigate, LoginPage.assertLoginPage, LoginPage.login,
    LoginPage.assertLoginSuccess, LoginPage.assertLoginError,
    InventoryPage.assertInventoryPage,
    InventoryPage.searchItemExistsInInventory, InventoryPage.searchItem,
    InventoryPage.assertItemInSearchResults,
    InventoryPage.assertItemNotInSearchResults,
    InventoryPage.selectProductSortOption, InventoryPage.verifyFirstItemInList,
    InventoryPage.verifyFirstItemPrice, InventoryPage.backToProducts,
    InventoryPage.clickOnInventoryItem, InventoryPage.verifyItemDetails,
    InventoryPage.verifyItemDescriptions, InventoryPage.verifyItemPrices,
    CartPage.assertCartPage, CartPage.assertCartItemCount,
    CartPage.addItemToCart, CartPage.assertItemAdded,
    CartPage.removeItem, CartPage.assertCartIsEmpty,
    CartPage.assertItemRemoved, CartPage.proceedToCheckout, CartPage.goToCart,
    CheckoutPage.assertCheckoutPage, CheckoutPage.assertOverviewPage,
    CheckoutPage.expectCurrentUrl,
    CheckoutPage.fillCheckoutInfo, CheckoutPage.finishCheckout,
    CheckoutPage.assertOrderConfirmation, CheckoutPage.assertErrorMessage,
    CheckoutPage.assertOrderSummary,
    Simple.InventoryPage_selectProductSortOption, Simple.CartPage_removeItem,
    Simple.CheckoutPage_assertCheckoutPage,
    Simple.CheckoutPage_assertOverviewPage.

Ltac unfold_base :=
  unfold BasePage.navigate, assertElementText, clickElement, fillField,
    assertUrlContains, getAllTextContents, waitForElement, getLocator,
    expect_toEqual, try_catch, bind, perform, ret, throw, console_error, eval.

Ltac reduce := cbn [fst snd world calls console thrown].

(** One driver call (or one throwing expression) more, both ways. *)
Ltac exec_step :=
  match goal with
  | |- context [match ?x with (_, _) => _ end] =>
      lazymatch type of x with
      | (_ * Session _)%type => fail
      | _ => destruct x as [[?|?] ?] eqn:?
      end
  | |- context [match new_RegExp ?p with _ => _ end] =>
      destruct (new_RegExp p) eqn:?
  | |- context [if list_eqb ?f ?a ?b then _ else _] =>
      destruct (list_eqb f a b) eqn:?
  end.

Ltac exec := reduce; repeat (exec_step; reduce).

(** Bring [skipn (length (calls s)) (calls s ++ ...)] to the calls added. *)
Ltac trace_norm :=
  rewrite <- ?app_assoc;
  try (rewrite skipn_length_app);
  try (rewrite <- (app_nil_r (calls _)) at 2; rewrite skipn_length_app);
  cbn [app].

Ltac run_all := unfold_methods; unfold_base; unfold issued, outcome; exec;
                trace_norm.

(* ================================================================= *)
(** ** Wait-then-act *)

Section WaitThenAct.
Context {World : Type} {driver : Driver World}.
Context {number : Type} {numbers : Numbers number}.

(** What [clickElement] issues: the visibility wait, and the click only
    when the wait returned. *)
Lemma clickElement_calls (selector : string) (s : Session World) :
  (exists cause,
      issued (clickElement selector) s
      = [Ev (ToBeVisible (Loc selector) None) (Some cause)])
  \/ (exists threw,
         issued (clickElement selector) s
         = [Ev (ToBeVisible (Loc selector) None) None;
            Ev (Click (Loc selector)) threw]).
Proof. run_all; eauto. Qed.

Lemma fillField_calls (selector value : string) (s : Session World) :
  (exists cause,
      issued (fillField selector value) s
      = [Ev (ToBeVisible (Loc selector) None) (Some cause)])
  \/ (exists threw,
         issued (fillField selector value) s
         = [Ev (ToBeVisible (Loc selector) None) None;
            Ev (Fill (Loc selector) value) threw]).
Proof. run_all; eauto. Qed.

(** Every call of every page-object method that changes the screen
    follows a successful wait on its target. *)
Lemma methods_wait_before_acting (m : Api.Method number)
    (s : Session World) :
  WaitFirst mutates [] (issued (Api.invoke m) s).
Proof. destruct m; run_all; simpl; auto 10. Qed.

End WaitThenAct.

(** C1, as stated, fails: a page-object method that reads the screen does
    so without any visibility wait.  On the catalogue page
    [verifyItemDescriptions] passes, having issued two reads and no wait,
    so its calls are not wait-then-act once reads count as acting. *)
Lemma C1_readers_do_not_wait :
  outcome (Api.invoke (Api.Inventory_verifyItemDescriptions _
                         Examples.catalogueItems))
          (start StaticPage.catalogue) = Ok tt
  /\ issued (Api.invoke (Api.Inventory_verifyItemDescriptions _
                           Examples.catalogueItems))
            (start StaticPage.catalogue)
     = [Ev (AllTextContents (Loc ".inventory_item_name")) None;
        Ev (AllTextContents (Loc ".inventory_item_desc")) None]
  /\ ~ WaitFirst reads_or_mutates []
         (issued (Api.invoke (Api.Inventory_verifyItemDescriptions _
                                Examples.catalogueItems))
                 (start StaticPage.catalogue)).
Proof.
  split; [reflexivity|]. split; [reflexivity|].
  intro H. vm_compute in H. tauto.
Qed.

(** C1, amended: every page-object method that changes the screen (a
    click, a fill, a key press, an option selection) first waits for its
    target to be visible.  [clickElement] and [fillField] call
    [waitForElement] on their selector and issue the click or the fill
    only after the wait has succeeded; when the wait fails nothing else is
    issued.  In every method of the four page objects built on BasePage
    each screen-changing call comes after a successful visibility wait on
    the same locator.  (Reading the texts of a list is not covered: it
    does not wait.) *)
Theorem C1_wait_then_act
    {World : Type} {driver : Driver World}
    {number : Type} {numbers : Numbers number} :
  (forall selector (s : Session World),
      (exists cause,
          issued (clickElement selector) s
          = [Ev (ToBeVisible (Loc selector) None) (Some cause)])
      \/ (exists threw,
             issued (clickElement selector) s
             = [Ev (ToBeVisible (Loc selector) None) None;
                Ev (Click (Loc selector)) threw]))
  /\ (forall selector value (s : Session World),
         (exists cause,
             issued (fillField selector value) s
             = [Ev (ToBeVisible (Loc selector) None) (Some cause)])
         \/ (exists threw,
                issued (fillField selector value) s
                = [Ev (ToBeVisible (Loc selector) None) None;
                   Ev (Fill (Loc selector) value) threw]))
  /\ (forall (m : Api.Method number) (s : Session World),
         WaitFirst mutates [] (issued (Api.invoke m) s)).
Proof.
  split; [exact clickElement_calls|].
  split; [exact fillField_calls|].
  exact methods_wait_before_acting.
Qed.

(* ================================================================= *)
(** ** Failures of the BasePage primitives *)

(** Close a goal [In (Ev op (Some cause)) calls -> outcome = Throw _] once
    the task has been run. *)
Ltac pick_failed :=
  simpl In; intros;
  repeat match goal with
         | H : _ \/ _ |- _ => destruct H
         | H : False |- _ => destruct H
         | H : Ev _ _ = Ev _ _ |- _ => inversion H; clear H; subst
         end;
  try discriminate; try reflexivity.

Section Failures.
Context {World : Type} {driver : Driver World}.

Lemma waitForElement_reraises (selector : string) (timeout : option Z) :
  reraises (World := World) (waitForElement selector timeout)
    (fun _ cause _ => newError (notVisibleMessage selector timeout cause)).
Proof. intros s op cause. run_all; pick_failed. Qed.

Lemma assertElementText_reraises (selector text : string)
    (timeout : option Z) :
  reraises (World := World) (assertElementText selector text timeout)
    (fun _ cause _ =>
       newError (textMismatchMessage selector text timeout cause)).
Proof. intros s op cause. run_all; pick_failed. Qed.

Lemma clickElement_reraises (selector : string) :
  reraises (World := World) (clickElement selector)
    (fun op cause _ =>
       newError (clickFailedMessage selector
         match op with
         | ToBeVisible _ _ =>
             newError (notVisibleMessage selector None cause)
         | _ => cause
         end)).
Proof. intros s op cause. run_all; pick_failed. Qed.

Lemma fillField_reraises (selector value : string) :
  reraises (World := World) (fillField selector value)
    (fun op cause _ =>
       newError (fillFailedMessage selector value
         match op with
         | ToBeVisible _ _ =>
             newError (notVisibleMessage selector None cause)
         | _ => cause
         end)).
Proof. intros s op cause. run_all; pick_failed. Qed.

Lemma assertUrlContains_reraises (urlSubstring : string) :
  reraises (World := World) (assertUrlContains urlSubstring)
    (fun _ cause s' =>
       newError (urlMismatchMessage urlSubstring (page_url (world s'))
                                    cause)).
Proof. intros s op cause. run_all; pick_failed. Qed.

Lemma getAllTextContents_reraises (selector : string) :
  reraises (World := World) (getAllTextContents selector)
    (fun _ cause _ => newError (textContentsFailedMessage selector cause)).
Proof. intros s op cause. run_all; pick_failed. Qed.

(** A pattern the RegExp constructor rejects is reported the same way,
    before any driver call. *)
Lemma assertUrlContains_bad_pattern (urlSubstring : string) cause
    (s : Session World) :
  new_RegExp urlSubstring = Throw cause ->
  outcome (assertUrlContains urlSubstring) s
  = Throw (newError (urlMismatchMessage urlSubstring (page_url (world s))
                                        cause))
  /\ issued (assertUrlContains urlSubstring) s = [].
Proof.
  intro E. unfold issued, outcome. unfold_base. rewrite E. reduce.
  rewrite <- (app_nil_r (calls s)) at 2. now rewrite skipn_length_app.
Qed.

End Failures.

(** C2, as stated, fails: the errors have no shape of their own.  On the
    catalogue page the wait for a hidden button throws an error named
    [Error], not [ElementNotVisible], whose message gives the word
    [default] where the claim has the timeout in milliseconds; the click
    on the same button throws an error named [Error] as well, not
    [ActionFailure]. *)
Lemma C2_failures_are_plain_errors :
  (exists e,
      outcome (waitForElement "#hidden-button" None)
              (start StaticPage.catalogue) = Throw e
      /\ name e = "Error"
      /\ name e <> Taxonomy.ElementNotVisible
      /\ message e
         = ("Element " ++ quoted "#hidden-button"
            ++ " not visible within default timeout: "
            ++ "Error: expect(locator).toBeVisible() failed")%string)
  /\ (exists e,
         outcome (clickElement "#hidden-button")
                 (start StaticPage.catalogue) = Throw e
         /\ name e = "Error"
         /\ name e <> Taxonomy.ActionFailure).
Proof.
  split; eexists; (split; [reflexivity|]); repeat split; discriminate.
Qed.

(** C2, amended: a failure of a BasePage primitive is a plain [Error]
    whose message carries the context.  When its visibility wait fails
    with [cause], [waitForElement] throws [new Error] of
    [Element "<selector>" not visible within <timeout> timeout: <cause>],
    where [<timeout>] is the override when one was given and is not 0, and
    the word [default] otherwise.  [clickElement] waits, then clicks, and
    rethrows a failure of either as [new Error] of
    [Failed to click element "<selector>": <cause>], the cause of a failed
    wait being the error of [waitForElement]. *)
Theorem C2_error_messages {World : Type} {driver : Driver World}
    (selector : string) (timeout : option Z) (s : Session World)
    (cause : Error) :
  (In (Ev (ToBeVisible (Loc selector) timeout) (Some cause))
      (issued (waitForElement selector timeout) s) ->
   outcome (waitForElement selector timeout) s
   = Throw (mkError "Error"
              ("Element " ++ quoted selector ++ " not visible within "
               ++ timeout_or_default timeout ++ " timeout: "
               ++ toString cause)%string))
  /\ (timeout_or_default None = "default"
      /\ timeout_or_default (Some 0%Z) = "default"
      /\ forall n, n <> 0%Z ->
                   timeout_or_default (Some n) = numberToString n)
  /\ ((exists failed,
          issued (clickElement selector) s
          = [Ev (ToBeVisible (Loc selector) None) (Some failed)])
      \/ (exists threw,
             issued (clickElement selector) s
             = [Ev (ToBeVisible (Loc selector) None) None;
                Ev (Click (Loc selector)) threw]))
  /\ (In (Ev (ToBeVisible (Loc selector) None) (Some cause))
         (issued (clickElement selector) s) ->
      outcome (clickElement selector) s
      = Throw (mkError "Error"
                 ("Failed to click element " ++ quoted selector ++ ": "
                  ++ toString
                       (mkError "Error"
                          ("Element " ++ quoted selector
                           ++ " not visible within default timeout: "
                           ++ toString cause)))%string))
  /\ (In (Ev (Click (Loc selector)) (Some cause))
         (issued (clickElement selector) s) ->
      outcome (clickElement selector) s
      = Throw (mkError "Error"
                 ("Failed to click element " ++ quoted selector ++ ": "
                  ++ toString cause)%string)).
Proof.
  split; [intro H; exact (waitForElement_reraises _ _ _ _ _ H)|].
  split.
  { repeat split. intros n Hn. unfold timeout_or_default.
    destruct (Z.eqb_spec n 0); [contradiction|reflexivity]. }
  split; [apply clickElement_calls|].
  split; intro H; exact (clickElement_reraises _ _ _ _ H).
Qed.

(** The amended C2 at work: a click on the hidden button of the catalogue
    page. *)
Lemma C2_error_messages_witness :
  outcome (clickElement "#hidden-button") (start StaticPage.catalogue)
  = Throw (mkError "Error"
             ("Failed to click element " ++ quoted "#hidden-button" ++ ": "
              ++ toString
                   (mkError "Error"
                      ("Element " ++ quoted "#hidden-button"
                       ++ " not visible within default timeout: "
                       ++ toString (StaticPage.expectFailed "toBeVisible()"))))%string).
Proof.
  apply (proj1 (proj2 (proj2 (proj2
           (C2_error_messages "#hidden-button" None
              (start StaticPage.catalogue)
              (StaticPage.expectFailed "toBeVisible()")))))).
  vm_compute. left. reflexivity.
Defined.

(** C4: no BasePage primitive swallows a failure.  Whenever a driver call
    inside [waitForElement], [assertElementText], [clickElement],
    [fillField], [assertUrlContains] or [getAllTextContents] throws, the
    primitive throws too, and what it throws is a new error whose message
    adds the context (the selector, the expected text or substring, the
    timeout, the current URL) to the text of the cause; it never returns
    a value in that case. *)
Theorem C4_primitives_reraise {World : Type} {driver : Driver World} :
  (forall selector timeout,
      reraises (World := World) (waitForElement selector timeout)
        (fun _ cause _ =>
           newError (notVisibleMessage selector timeout cause)))
  /\ (forall selector text timeout,
         reraises (World := World) (assertElementText selector text timeout)
           (fun _ cause _ =>
              newError (textMismatchMessage selector text timeout cause)))
  /\ (forall selector,
         reraises (World := World) (clickElement selector)
           (fun op cause _ =>
              newError (clickFailedMessage selector
                match op with
                | ToBeVisible _ _ =>
                    newError (notVisibleMessage selector None cause)
                | _ => cause
                end)))
  /\ (forall selector value,
         reraises (World := World) (fillField selector value)
           (fun op cause _ =>
              newError (fillFailedMessage selector value
                match op with
                | ToBeVisible _ _ =>
                    newError (notVisibleMessage selector None cause)
                | _ => cause
                end)))
  /\ (forall urlSubstring,
         reraises (World := World) (assertUrlContains urlSubstring)
           (fun _ cause s' =>
              newError (urlMismatchMessage urlSubstring
                                           (page_url (world s')) cause)))
  /\ (forall selector,
         reraises (World := World) (getAllTextContents selector)
           (fun _ cause _ =>
              newError (textContentsFailedMessage selector cause))).
Proof.
  repeat split.
  - exact waitForElement_reraises.
  - exact assertElementText_reraises.
  - exact clickElement_reraises.
  - exact fillField_reraises.
  - exact assertUrlContains_reraises.
  - exact getAllTextContents_reraises.
Qed.

(** C4 at work: the title of the catalogue page is not the cart's, and
    the text assertion throws what the driver threw, with its context. *)
Lemma C4_primitives_reraise_witness :
  outcome (assertElementText ".title" "Your Cart" None)
          (start StaticPage.catalogue)
  = Throw (newError (textMismatchMessage ".title" "Your Cart" None
                       (StaticPage.expectFailed "toHaveText()"))).
Proof.
  apply (proj1 (proj2 C4_primitives_reraise) ".title" "Your Cart" None
           (start StaticPage.catalogue)
           (ToHaveText (Loc ".title") "Your Cart" None)
           (StaticPage.expectFailed "toHaveText()")).
  vm_compute. left. reflexivity.
Defined.

(* ================================================================= *)
(** ** Sort options *)

(** C3, as stated, fails: the method checks its argument against no set.
    On the catalogue page, whose dropdown offers a fifth order, an option
    outside the four documented ones is selected and the method returns;
    an option the dropdown does not offer makes the driver time out, and
    the method throws the driver's [TimeoutError] as it is, not an
    [InvalidOption].  The variant without BasePage does the same. *)
Lemma C3_no_option_is_rejected_by_the_method :
  ~ In "Newest first" InventoryPage.documentedSortOptions
  /\ outcome (InventoryPage.selectProductSortOption "Newest first")
             (start StaticPage.catalogue) = Ok tt
  /\ outcome (Simple.InventoryPage_selectProductSortOption "Newest first")
             (start StaticPage.catalogue) = Ok tt
  /\ ~ In "Price" InventoryPage.documentedSortOptions
  /\ outcome (InventoryPage.selectProductSortOption "Price")
             (start StaticPage.catalogue)
     = Throw (mkError "TimeoutError" "locator.selectOption: Timeout exceeded")
  /\ outcome (Simple.InventoryPage_selectProductSortOption "Price")
             (start StaticPage.catalogue)
     = Throw (mkError "TimeoutError" "locator.selectOption: Timeout exceeded")
  /\ "TimeoutError" <> Taxonomy.InvalidOption.
Proof.
  repeat split; try reflexivity; try discriminate;
    simpl; intuition discriminate.
Qed.

(** C3, amended: [selectProductSortOption] does not validate its
    argument.  It waits for the sort dropdown to be visible and hands the
    option, unchanged, to the driver's [selectOption]; it fails exactly
    when the wait fails (with the error of [waitForElement]) or when the
    driver's [selectOption] fails (with the driver's own error,
    unwrapped), and returns otherwise, whatever the option. *)
Theorem C3_sort_option_passed_to_driver
    {World : Type} {driver : Driver World}
    (sortOption : string) (s : Session World) :
  match expect_toBeVisible (Loc ".product_sort_container") None (world s) with
  | (Throw cause, _) =>
      outcome (InventoryPage.selectProductSortOption sortOption) s
      = Throw (newError
                 (notVisibleMessage ".product_sort_container" None cause))
      /\ issued (InventoryPage.selectProductSortOption sortOption) s
         = [Ev (ToBeVisible (Loc ".product_sort_container") None)
               (Some cause)]
  | (Ok _, w) =>
      outcome (InventoryPage.selectProductSortOption sortOption) s
      = fst (locator_selectOption (Loc ".product_sort_container")
                                  sortOption w)
      /\ issued (InventoryPage.selectProductSortOption sortOption) s
         = [Ev (ToBeVisible (Loc ".product_sort_container") None) None;
            Ev (SelectOption (Loc ".product_sort_container") sortOption)
               (thrown (fst (locator_selectOption
                               (Loc ".product_sort_container")
                               sortOption w)))]
  end.
Proof.
  unfold InventoryPage.selectProductSortOption,
    InventoryPage.sortDropdownSelector.
  unfold_base. unfold issued, outcome. reduce.
  destruct (expect_toBeVisible _ _ _) as [[[]|cause] w]; reduce.
  - destruct (locator_selectOption _ _ _) as [r w']; reduce.
    trace_norm. now destruct r.
  - trace_norm. split; reflexivity.
Qed.

(* ================================================================= *)
(** ** The checkout form *)

Section FillOrder.
Context {World : Type} {driver : Driver World}.

(** The calls of [fillCheckoutInfo] are, in this order: first name,
    last name, postal code, each waited for and then filled, and the
    Continue button, waited for and then clicked.  A failure cuts the
    sequence short; without one the sequence is complete. *)
Lemma fillCheckoutInfo_order (firstName lastName zip : string)
    (s : Session World) :
  is_prefix
    (map ev_op (issued (CheckoutPage.fillCheckoutInfo firstName lastName zip) s))
    (Examples.filledAndSubmitted firstName lastName zip)
  /\ (outcome (CheckoutPage.fillCheckoutInfo firstName lastName zip) s
      = Ok tt ->
      issued (CheckoutPage.fillCheckoutInfo firstName lastName zip) s
      = map (fun op => Ev op None)
            (Examples.filledAndSubmitted firstName lastName zip)).
Proof.
  unfold is_prefix, Examples.filledAndSubmitted.
  run_all; simpl;
    (split; [eexists; reflexivity | intro; try discriminate; reflexivity]).
Qed.

End FillOrder.

(** On the form, every field is filled with what the caller gave, empty
    or not, and the form is then submitted. *)
Lemma fillCheckoutInfo_on_form (form : CheckoutForm.Form)
    (firstName lastName zip : string) :
  CheckoutForm.step form = CheckoutForm.InfoForm ->
  CheckoutPage.fillCheckoutInfo firstName lastName zip (start form)
  = (Ok tt,
     mkSession
       (CheckoutForm.submit
          (CheckoutForm.mkForm CheckoutForm.InfoForm firstName lastName zip
             (CheckoutForm.error form)))
       (map (fun op => Ev op None)
            (Examples.filledAndSubmitted firstName lastName zip))
       []).
Proof.
  destruct form as [st f l z e]; simpl; intros ->.
  destruct e; reflexivity.
Qed.

(** C5: [fillCheckoutInfo] fills first name, last name and postal code,
    in this order, with the values it is given (the empty string
    included), then submits.  On the form of the application, modelled
    from the specification, the first missing field in that order decides
    the message; the scenario that omits the first name and the one that
    omits all three fields both pass with [Error: First Name is
    required]. *)
Theorem C5_first_missing_field_wins :
  (forall (World : Type) (driver : Driver World)
          (firstName lastName zip : string) (s : Session World),
      is_prefix
        (map ev_op
             (issued (CheckoutPage.fillCheckoutInfo firstName lastName zip) s))
        (Examples.filledAndSubmitted firstName lastName zip)
      /\ (outcome (CheckoutPage.fillCheckoutInfo firstName lastName zip) s
          = Ok tt ->
          issued (CheckoutPage.fillCheckoutInfo firstName lastName zip) s
          = map (fun op => Ev op None)
                (Examples.filledAndSubmitted firstName lastName zip)))
  /\ (forall (form : CheckoutForm.Form) (firstName lastName zip : string),
         CheckoutForm.step form = CheckoutForm.InfoForm ->
         let shown :=
           CheckoutForm.error
             (world (snd (CheckoutPage.fillCheckoutInfo
                            firstName lastName zip (start form)))) in
         (firstName = EmptyString ->
          shown = Some "Error: First Name is required")
         /\ (firstName <> EmptyString -> lastName = EmptyString ->
             shown = Some "Error: Last Name is required")
         /\ (firstName <> EmptyString -> lastName <> EmptyString ->
             zip = EmptyString ->
             shown = Some "Error: Postal Code is required")
         /\ (firstName <> EmptyString -> lastName <> EmptyString ->
             zip <> EmptyString ->
             shown = None))
  /\ (outcome CheckoutTest.missing_first_name (start CheckoutForm.fresh)
      = Ok tt
      /\ outcome CheckoutTest.empty_user (start CheckoutForm.fresh) = Ok tt
      /\ CheckoutForm.error
           (world (snd (CheckoutTest.missing_first_name
                          (start CheckoutForm.fresh))))
         = CheckoutForm.error
             (world (snd (CheckoutTest.empty_user
                            (start CheckoutForm.fresh))))).
Proof.
  split; [intros; apply fillCheckoutInfo_order|].
  split; [|repeat split; reflexivity].
  intros form f l z Hstep shown. subst shown.
  rewrite (fillCheckoutInfo_on_form form f l z Hstep).
  cbn [snd world]. unfold CheckoutForm.submit, CheckoutForm.validate.
  cbn [CheckoutForm.first_name CheckoutForm.last_name
       CheckoutForm.postal_code].
  repeat split; intros;
    destruct f, l, z; simpl; try reflexivity; try congruence.
Qed.

(** The four validation scenarios of the checkout tests pass on the
    form. *)
Example checkout_scenarios_pass :
  outcome CheckoutTest.missing_first_name (start CheckoutForm.fresh) = Ok tt
  /\ outcome CheckoutTest.missing_last_name (start CheckoutForm.fresh) = Ok tt
  /\ outcome CheckoutTest.missing_zip_code (start CheckoutForm.fresh) = Ok tt
  /\ outcome CheckoutTest.empty_user (start CheckoutForm.fresh) = Ok tt.
Proof. repeat split. Qed.

(** C5 at work: on a fresh form, first name omitted alone. *)
Lemma C5_first_missing_field_wins_witness :
  CheckoutForm.error
    (world (snd (CheckoutPage.fillCheckoutInfo EmptyString "Doe" "12345"
                   (start CheckoutForm.fresh))))
  = Some "Error: First Name is required".
Proof.
  apply (proj1 (proj2 C5_first_missing_field_wins) CheckoutForm.fresh
               EmptyString "Doe" "12345" eq_refl).
  reflexivity.
Defined.

(* ================================================================= *)
(** ** Lists of names and prices *)

Section ListEquality.
Context {A B C : Type} (eqb : C -> C -> bool) (f : A -> C) (g : B -> C).

Lemma list_eqb_Forall2 (xs : list A) (ys : list B) :
  list_eqb eqb (map f xs) (map g ys) = true
  <-> Forall2 (fun x y => eqb (f x) (g y) = true) xs ys.
Proof.
  revert ys. induction xs as [|x xs IH]; intros [|y ys]; simpl.
  - split; [constructor | reflexivity].
  - split; [discriminate | intro H; inversion H].
  - split; [discriminate | intro H; inversion H].
  - rewrite andb_true_iff, IH. split.
    + intros [Hx Hxs]. now constructor.
    + intro H. inversion H; subst. now split.
Qed.

Lemma Forall2_same_length (P : A -> B -> Prop) xs ys :
  Forall2 P xs ys -> length xs = length ys.
Proof. induction 1; simpl; congruence. Qed.

Lemma Forall2_at (P : A -> B -> Prop) xs ys i x y :
  Forall2 P xs ys ->
  nth_error xs i = Some x -> nth_error ys i = Some y -> P x y.
Proof.
  intro H. revert i. induction H as [|x0 y0 xs ys Hxy H IH]; intros [|i];
    simpl; try discriminate.
  - now intros [= ->] [= ->].
  - apply IH.
Qed.

End ListEquality.

Section Prices.
Context {World : Type} {driver : Driver World}.
Context {number : Type} {numbers : Numbers number}.
Import InventoryPage.

(** The two reads done, the outcome is that of the two comparisons. *)
Lemma verifyItemPrices_outcome (expected : list (Item number))
    (s : Session World) (names prices : list string) (w1 w2 : World) :
  locator_allTextContents (Loc ".inventory_item_name") (world s)
  = (Ok names, w1) ->
  locator_allTextContents (Loc ".inventory_item_price") w1
  = (Ok prices, w2) ->
  outcome (verifyItemPrices expected) s
  = (if list_eqb String.eqb names (map item_name expected)
        && list_eqb number_eqb (map formatPrice prices)
                    (map item_price expected)
     then Ok tt
     else Throw (newError "expect(received).toEqual(expected)"))
  /\ issued (verifyItemPrices expected) s
     = [Ev (AllTextContents (Loc ".inventory_item_name")) None;
        Ev (AllTextContents (Loc ".inventory_item_price")) None].
Proof.
  intros H1 H2.
  unfold verifyItemPrices, itemNameSelector, itemPriceSelector.
  unfold_base. unfold issued, outcome. reduce.
  rewrite H1. reduce. rewrite H2. reduce.
  destruct (list_eqb String.eqb _ _); reduce;
    [destruct (list_eqb number_eqb _ _); reduce|];
    trace_norm; split; reflexivity.
Qed.

Lemma names_equal (names : list string) (expected : list (Item number)) :
  list_eqb String.eqb names (map item_name expected) = true
  <-> Forall2 (fun n it => n = item_name it) names expected.
Proof.
  rewrite <- (map_id names) at 1. rewrite list_eqb_Forall2.
  split; intro H; induction H; constructor; auto;
    now apply String.eqb_eq.
Qed.

End Prices.

(** C6: [verifyItemPrices] reads the whole list of names and the whole
    list of prices, turns every price into a number with [parseFloat]
    after taking the dollar sign off, and passes only when both lists
    agree with the expected ones position by position: a list of another
    length, one name that differs or one price that differs makes it
    throw. *)
Theorem C6_prices_all_or_nothing
    {World : Type} {driver : Driver World}
    {number : Type} {numbers : Numbers number}
    (expected : list (InventoryPage.Item number)) (s : Session World)
    (names prices : list string) (w1 w2 : World) :
  locator_allTextContents (Loc ".inventory_item_name") (world s)
  = (Ok names, w1) ->
  locator_allTextContents (Loc ".inventory_item_price") w1
  = (Ok prices, w2) ->
  (outcome (InventoryPage.verifyItemPrices expected) s = Ok tt
   <-> Forall2 (fun n it => n = InventoryPage.item_name it) names expected
       /\ Forall2 (fun p it =>
                     number_eqb (parseFloat (replaceFirst "$" EmptyString p))
                                (InventoryPage.item_price it) = true)
                  prices expected)
  /\ (length names <> length expected \/ length prices <> length expected ->
      exists e, outcome (InventoryPage.verifyItemPrices expected) s = Throw e)
  /\ (forall i n it,
         nth_error names i = Some n -> nth_error expected i = Some it ->
         n <> InventoryPage.item_name it ->
         exists e, outcome (InventoryPage.verifyItemPrices expected) s = Throw e)
  /\ (forall i p it,
         nth_error prices i = Some p -> nth_error expected i = Some it ->
         number_eqb (parseFloat (replaceFirst "$" EmptyString p))
                    (InventoryPage.item_price it) = false ->
         exists e, outcome (InventoryPage.verifyItemPrices expected) s = Throw e)
  /\ (forall p, replaceFirst "$" EmptyString (String "$" p) = p).
Proof.
  intros H1 H2.
  destruct (verifyItemPrices_outcome expected s names prices w1 w2 H1 H2)
    as [Hout _].
  assert (Hiff :
    outcome (InventoryPage.verifyItemPrices expected) s = Ok tt
    <-> Forall2 (fun n it => n = InventoryPage.item_name it) names expected
        /\ Forall2 (fun p it =>
                      number_eqb (parseFloat (replaceFirst "$" EmptyString p))
                                 (InventoryPage.item_price it) = true)
                   prices expected).
  { rewrite Hout. split.
    - intro H.
      destruct (list_eqb String.eqb _ _) eqn:E1; [|discriminate].
      destruct (list_eqb number_eqb _ _) eqn:E2; [|discriminate].
      split; [now apply names_equal|].
      now apply (list_eqb_Forall2 number_eqb InventoryPage.formatPrice
                   InventoryPage.item_price).
    - intros [Hn Hp]. apply names_equal in Hn.
      apply (list_eqb_Forall2 number_eqb InventoryPage.formatPrice
               InventoryPage.item_price) in Hp.
      now rewrite Hn, Hp. }
  assert (Hthrow :
    outcome (InventoryPage.verifyItemPrices expected) s <> Ok tt ->
    exists e, outcome (InventoryPage.verifyItemPrices expected) s = Throw e).
  { rewrite Hout. destruct (_ && _); [congruence | eauto]. }
  split; [exact Hiff|].
  split; [|split; [|split]].
  - intros Hlen. apply Hthrow. intro Hok. apply Hiff in Hok as [Hn Hp].
    apply Forall2_same_length in Hn, Hp. tauto.
  - intros i n it Hn Hit Hneq. apply Hthrow. intro Hok.
    apply Hiff in Hok as [Hnames _].
    exact (Hneq (Forall2_at _ _ _ i n it Hnames Hn Hit)).
  - intros i p it Hp Hit Hneq. apply Hthrow. intro Hok.
    apply Hiff in Hok as [_ Hprices].
    pose proof (Forall2_at _ _ _ i p it Hprices Hp Hit) as Heq.
    cbv beta in Heq. congruence.
  - reflexivity.
Qed.

(** C6 at work: on the catalogue page, the second price is expected
    wrong. *)
Lemma C6_prices_all_or_nothing_witness :
  exists e,
    outcome (InventoryPage.verifyItemPrices Examples.mispricedItems)
            (start StaticPage.catalogue) = Throw e.
Proof.
  assert (H1 : locator_allTextContents (Loc ".inventory_item_name")
                 (world (start StaticPage.catalogue))
               = (Ok ["Sauce Labs Backpack"; "Sauce Labs Bike Light"],
                  StaticPage.catalogue)) by reflexivity.
  assert (H2 : locator_allTextContents (Loc ".inventory_item_price")
                 StaticPage.catalogue
               = (Ok ["$29.99"; "$9.99"], StaticPage.catalogue))
    by reflexivity.
  apply (proj1 (proj2 (proj2 (proj2
           (C6_prices_all_or_nothing Examples.mispricedItems
              (start StaticPage.catalogue) _ _ _ _ H1 H2))))
           1%nat "$9.99"
           (InventoryPage.mkItem "Sauce Labs Bike Light" "A red light"
                                 (Decimal.Dec 1099 2)));
    reflexivity.
Defined.

(** The same page against the right prices passes. *)
Example verifyItemPrices_passes :
  outcome (InventoryPage.verifyItemPrices Examples.catalogueItems)
          (start StaticPage.catalogue) = Ok tt.
Proof. reflexivity. Qed.

(* ================================================================= *)
(** ** Reading a list of texts *)

Section ReadAll.
Context {World : Type} {driver : Driver World}.

(** One driver call, the read itself; no visibility wait. *)
Lemma getAllTextContents_calls (selector : string) (s : Session World) :
  exists threw,
    issued (getAllTextContents selector) s
    = [Ev (AllTextContents (Loc selector)) threw].
Proof. run_all; eauto. Qed.

(** What the driver read is returned as it is. *)
Lemma getAllTextContents_returns (selector : string) (s : Session World)
    (texts : list string) (w : World) :
  locator_allTextContents (Loc selector) (world s) = (Ok texts, w) ->
  outcome (getAllTextContents selector) s = Ok texts.
Proof.
  intro H. unfold outcome. unfold_base. reduce. now rewrite H.
Qed.

End ReadAll.

Lemma filter_none {A} (f : A -> bool) (l : list A) :
  (forall x, In x l -> f x = false) -> filter f l = [].
Proof.
  induction l as [|x l IH]; simpl; intro H; [reflexivity|].
  rewrite (H x (or_introl eq_refl)). apply IH. auto.
Qed.

(** C7: [getAllTextContents] issues the read and nothing else, no wait
    before it, and returns what the driver read, unchanged.  On a page,
    that is the text of every element the selector finds, in document
    order; when it finds none the result is the empty list, not an
    error. *)
Theorem C7_getAllTextContents_reads_all :
  (forall (World : Type) (driver : Driver World) selector (s : Session World),
      exists threw,
        issued (getAllTextContents selector) s
        = [Ev (AllTextContents (Loc selector)) threw])
  /\ (forall (World : Type) (driver : Driver World) selector
             (s : Session World) texts w,
         locator_allTextContents (Loc selector) (world s) = (Ok texts, w) ->
         outcome (getAllTextContents selector) s = Ok texts)
  /\ (forall (page : StaticPage.Page) selector,
         outcome (getAllTextContents selector) (start page)
         = Ok (map StaticPage.el_text
                   (filter (StaticPage.matchesb selector)
                           (StaticPage.dom page))))
  /\ (forall (page : StaticPage.Page) selector,
         (forall e, In e (StaticPage.dom page) ->
                    StaticPage.matchesb selector e = false) ->
         outcome (getAllTextContents selector) (start page) = Ok []).
Proof.
  split; [intros; apply getAllTextContents_calls|].
  split; [intros; eapply getAllTextContents_returns; eassumption|].
  split; [reflexivity|].
  intros page selector H.
  change (Ok (map StaticPage.el_text
                  (filter (StaticPage.matchesb selector)
                          (StaticPage.dom page))) = Ok (@nil string)).
  now rewrite (filter_none _ _ H).
Qed.

(** C7 at work: no cart item on the catalogue page. *)
Lemma C7_getAllTextContents_reads_all_witness :
  outcome (getAllTextContents ".cart_item") (start StaticPage.catalogue)
  = Ok [].
Proof.
  apply (proj2 (proj2 (proj2 C7_getAllTextContents_reads_all))).
  simpl. intros e H.
  repeat (destruct H as [<-|H]; [reflexivity|]). destruct H.
Defined.

(** The names of the catalogue page, in the order of the page. *)
Example getAllTextContents_in_order :
  outcome (getAllTextContents ".inventory_item_name")
          (start StaticPage.catalogue)
  = Ok ["Sauce Labs Backpack"; "Sauce Labs Bike Light"].
Proof. reflexivity. Qed.

(* ================================================================= *)
(** ** Timeouts *)

Section Timeouts.
Context {World : Type} {driver : Driver World}.
Context {number : Type} {numbers : Numbers number}.

Lemma assertCartItemCount_calls (expectedItemCount : Z)
    (s : Session World) :
  exists threw,
    issued (CartPage.assertCartItemCount expectedItemCount) s
    = [Ev (ToHaveText (Loc ".shopping_cart_badge")
                      (numberToString expectedItemCount) (Some 10000%Z))
          threw].
Proof. run_all; eauto. Qed.

(** No assertion of any other method is given a timeout. *)
Lemma other_assertions_use_default (m : Api.Method number)
    (s : Session World) (e : Event) :
  Api.is_assertCartItemCount m = false ->
  In e (issued (Api.invoke m) s) ->
  is_assertion (ev_op e) = true ->
  expectation_timeout (ev_op e) = Some None.
Proof.
  intro Hm. destruct m; try discriminate Hm; clear Hm;
    run_all; simpl In; intros Hin Ha;
    repeat match goal with
           | H : _ \/ _ |- _ => destruct H
           | H : False |- _ => destruct H
           | H : Ev _ _ = _ |- _ => subst e
           end;
    simpl in *; try discriminate; reflexivity.
Qed.

(** The expectations that are given a timeout: the badge assertion, and
    the visibility wait of [assertItemAdded]. *)
Lemma explicit_timeouts (m : Api.Method number) (s : Session World)
    (e : Event) (t : Z) :
  In e (issued (Api.invoke m) s) ->
  expectation_timeout (ev_op e) = Some (Some t) ->
  t = 10000%Z
  /\ (Api.is_assertCartItemCount m = true
      \/ exists itemName,
           m = Api.Cart_assertItemAdded _ itemName
           /\ ev_op e
              = ToBeVisible
                  (Loc (".inventory_item_name:has-text("
                        ++ quoted itemName ++ ")")%string)
                  (Some 10000%Z)).
Proof.
  destruct m;
    run_all; simpl In; intros Hin Ht;
    repeat match goal with
           | H : _ \/ _ |- _ => destruct H
           | H : False |- _ => destruct H
           | H : Ev _ _ = _ |- _ => subst e
           end;
    simpl in *; try discriminate;
    injection Ht as <-; (split; [reflexivity|]); eauto.
Qed.

End Timeouts.

(** C8, as stated, fails: another assertion of the layer has the same
    timeout.  [assertItemAdded], run on the catalogue page, expects the
    item to be visible within 10000 ms, the timeout of the badge
    assertion, so the badge assertion's is not longer than every
    other. *)
Lemma C8_item_assertion_has_the_same_timeout :
  issued (Api.invoke (number := Decimal.decimal)
            (Api.Cart_assertItemAdded _ "Sauce Labs Backpack"))
         (start StaticPage.catalogue)
  = [Ev (ToBeVisible (Loc ".shopping_cart_link") None) None;
     Ev (Click (Loc ".shopping_cart_link")) None;
     Ev (ToBeVisible
           (Loc (".inventory_item_name:has-text("
                 ++ quoted "Sauce Labs Backpack" ++ ")")%string)
           (Some 10000%Z)) None;
     Ev (ToHaveText
           (Loc (".inventory_item_name:has-text("
                 ++ quoted "Sauce Labs Backpack" ++ ")")%string)
           "Sauce Labs Backpack" None) None]
  /\ forall default,
       ~ (effective_timeout default (Some 10000%Z)
          < effective_timeout default (Some CartPage.badgeTimeout))%Z.
Proof.
  split; [reflexivity|].
  intro default. unfold effective_timeout, CartPage.badgeTimeout. lia.
Qed.

(** C8, amended: the badge assertion of [assertCartItemCount] is given
    10000 ms, and no other text, count or URL assertion and no negative
    visibility check of the four page objects is given a timeout at all,
    so that each has the process-wide default: with a default below
    10000 ms the badge assertion may wait longer than any of them.  The
    only other expectation given a timeout is the visibility wait of
    [assertItemAdded], with the same 10000 ms. *)
Theorem C8_badge_timeout_extended
    {World : Type} {driver : Driver World}
    {number : Type} {numbers : Numbers number} (default : Z) :
  (default < CartPage.badgeTimeout)%Z ->
  (forall n (s : Session World),
      exists threw,
        issued (CartPage.assertCartItemCount n) s
        = [Ev (ToHaveText (Loc ".shopping_cart_badge") (numberToString n)
                          (Some 10000%Z)) threw])
  /\ (forall (m : Api.Method number) (s : Session World) (e : Event),
         Api.is_assertCartItemCount m = false ->
         In e (issued (Api.invoke m) s) ->
         is_assertion (ev_op e) = true ->
         expectation_timeout (ev_op e) = Some None
         /\ (effective_timeout default None
             < effective_timeout default (Some CartPage.badgeTimeout))%Z)
  /\ (forall (m : Api.Method number) (s : Session World) (e : Event) t,
         In e (issued (Api.invoke m) s) ->
         expectation_timeout (ev_op e) = Some (Some t) ->
         t = 10000%Z
         /\ (Api.is_assertCartItemCount m = true
             \/ exists itemName,
                  m = Api.Cart_assertItemAdded _ itemName
                  /\ ev_op e
                     = ToBeVisible
                         (Loc (".inventory_item_name:has-text("
                               ++ quoted itemName ++ ")")%string)
                         (Some 10000%Z))).
Proof.
  intro Hd. split; [exact assertCartItemCount_calls|].
  split; [|exact explicit_timeouts].
  intros m s e Hm Hin Ha. split; [|exact Hd].
  exact (other_assertions_use_default m s e Hm Hin Ha).
Qed.

(** The amended C8 at work, with the driver's stock default of 5000 ms:
    the title assertion of [assertCartPage] on the catalogue page. *)
Lemma C8_badge_timeout_extended_witness :
  expectation_timeout (ToHaveText (Loc ".title") "Your Cart" None) = Some None
  /\ (effective_timeout 5000 None
      < effective_timeout 5000 (Some CartPage.badgeTimeout))%Z.
Proof.
  assert (Hd : (5000 < CartPage.badgeTimeout)%Z) by reflexivity.
  apply (proj1 (proj2 (C8_badge_timeout_extended (number := Decimal.decimal)
                         5000%Z Hd))
           (Api.Cart_assertCartPage _) (start StaticPage.catalogue)
           (Ev (ToHaveText (Loc ".title") "Your Cart" None)
               (Some (StaticPage.expectFailed "toHaveText()")))).
  - reflexivity.
  - vm_compute. left. reflexivity.
  - reflexivity.
Defined.

(* ================================================================= *)
(** ** The selector of the remove button *)

Section Formatting.

Lemma toLowerCase_app (a b : string) :
  toLowerCase (a ++ b) = (toLowerCase a ++ toLowerCase b)%string.
Proof. induction a as [|c a IH]; simpl; congruence. Qed.

Lemma lower_unit_fixed (c : ascii) : is_upper c = false -> lower_unit c = c.
Proof. unfold lower_unit. now intros ->. Qed.

Lemma append_assoc (a b c : string) :
  ((a ++ b) ++ c)%string = (a ++ (b ++ c))%string.
Proof. induction a as [|x a IH]; simpl; congruence. Qed.

(** A character that is no whitespace stays, and ends a run. *)
Lemma replace_space_runs_split (rep a b : string) (c : ascii)
    (in_run : bool) :
  is_space c = false ->
  replace_space_runs rep in_run (a ++ String c b)
  = (replace_space_runs rep in_run a
     ++ String c (replace_space_runs rep false b))%string.
Proof.
  intro Hc. revert in_run.
  induction a as [|x a IH]; intro in_run; simpl.
  - now rewrite Hc.
  - destruct (is_space x).
    + destruct in_run; rewrite IH; [reflexivity|].
      now rewrite append_assoc.
    + now rewrite IH.
Qed.

Lemma formatItemName_split (a b : string) (c : ascii) :
  is_space c = false -> is_upper c = false ->
  CartPage.formatItemName (a ++ String c b)
  = (CartPage.formatItemName a
     ++ String c (CartPage.formatItemName b))%string.
Proof.
  intros Hs Hu. unfold CartPage.formatItemName, replaceAllSpaceRuns.
  rewrite toLowerCase_app. simpl. rewrite (lower_unit_fixed c Hu).
  now apply replace_space_runs_split.
Qed.

(** The code's scan is the replacement of each maximal run. *)
Lemma replaceAllSpaceRuns_runs (rep s : string) :
  replaceAllSpaceRuns rep s = Runs.replace_each_space_run rep s.
Proof.
  unfold replaceAllSpaceRuns, Runs.replace_each_space_run.
  rewrite replace_space_runs_runs.
  destruct (Runs.runs s) as [|[[|] r] tl]; reflexivity.
Qed.

End Formatting.

Section RemoveItem.
Context {World : Type} {driver : Driver World}.

(** The three calls of [removeItem], all on the derived selector. *)
Lemma removeItem_calls (itemName : string) (s : Session World) :
  is_prefix
    (map ev_op (issued (CartPage.removeItem itemName) s))
    [ToBeVisible (Loc (CartPage.removeButtonSelectorOf itemName)) None;
     Click (Loc (CartPage.removeButtonSelectorOf itemName));
     NotToBeVisible (Loc (CartPage.removeButtonSelectorOf itemName))].
Proof.
  unfold is_prefix, CartPage.removeItem.
  generalize (CartPage.removeButtonSelectorOf itemName). intro selector.
  unfold_base. unfold issued. exec; trace_norm; simpl;
    eexists; reflexivity.
Qed.

(** The variant without BasePage issues the same calls. *)
Lemma removeItem_variants (itemName : string) (s : Session World) :
  issued (Simple.CartPage_removeItem itemName) s
  = issued (CartPage.removeItem itemName) s.
Proof.
  unfold Simple.CartPage_removeItem, CartPage.removeItem,
    CartPage.removeButtonSelectorOf, CartPage.formatItemName.
  generalize (replaceAllSpaceRuns "-" (toLowerCase itemName)).
  intro formatted.
  unfold_base. unfold issued. exec; trace_norm; reflexivity.
Qed.

End RemoveItem.

(** C9: the selector of the remove button is a function of the item name:
    the name in lower case, each maximal run of whitespace replaced by one
    hyphen, after [remove-] in a [data-test] attribute selector.  [Sauce
    Labs Backpack] gives the selector of [remove-sauce-labs-backpack].  A
    character that is neither whitespace nor a capital, such as a full
    stop or a bracket, stays as it is at its place.  [removeItem] waits
    for, clicks and then expects gone the element of that selector, in
    both variants. *)
Theorem C9_remove_selector :
  (forall itemName,
      CartPage.removeButtonSelectorOf itemName
      = ("[data-test="
         ++ quoted ("remove-"
                    ++ Runs.replace_each_space_run "-" (toLowerCase itemName))
         ++ "]")%string)
  /\ (forall s,
         Runs.join (map snd (Runs.runs s)) = s
         /\ Runs.alternate (Runs.runs s) = true
         /\ forallb Runs.well_formed_run (Runs.runs s) = true)
  /\ CartPage.removeButtonSelectorOf "Sauce Labs Backpack"
     = ("[data-test=" ++ quoted "remove-sauce-labs-backpack" ++ "]")%string
  /\ CartPage.removeButtonSelectorOf "Test.allTheThings() T-Shirt (Red)"
     = ("[data-test=" ++ quoted "remove-test.allthethings()-t-shirt-(red)"
        ++ "]")%string
  /\ (forall (a b : string) (c : ascii),
         is_space c = false -> is_upper c = false ->
         CartPage.formatItemName (a ++ String c b)
         = (CartPage.formatItemName a
            ++ String c (CartPage.formatItemName b))%string)
  /\ (forall c, In c ["."; "("; ")"]%char ->
                is_space c = false /\ is_upper c = false)
  /\ (forall (World : Type) (driver : Driver World) itemName
             (s : Session World),
         is_prefix
           (map ev_op (issued (CartPage.removeItem itemName) s))
           [ToBeVisible (Loc (CartPage.removeButtonSelectorOf itemName)) None;
            Click (Loc (CartPage.removeButtonSelectorOf itemName));
            NotToBeVisible (Loc (CartPage.removeButtonSelectorOf itemName))]
         /\ issued (Simple.CartPage_removeItem itemName) s
            = issued (CartPage.removeItem itemName) s).
Proof.
  split.
  { intro itemName. unfold CartPage.removeButtonSelectorOf,
      CartPage.formatItemName. now rewrite replaceAllSpaceRuns_runs. }
  split.
  { intro s. split; [apply runs_join|].
    split; [apply runs_alternate | apply runs_well_formed]. }
  split; [reflexivity|]. split; [reflexivity|].
  split; [exact formatItemName_split|].
  split.
  { intros c H. simpl in H.
    repeat (destruct H as [<-|H]; [split; reflexivity|]). destruct H. }
  intros World driver itemName s.
  split; [apply removeItem_calls | apply removeItem_variants].
Qed.

(** C9 at work: the full stop of [Test.all] stays between what the two
    sides become. *)
Lemma C9_remove_selector_witness :
  CartPage.formatItemName ("Test" ++ String "." "all The")
  = (CartPage.formatItemName "Test"
     ++ String "." (CartPage.formatItemName "all The"))%string.
Proof.
  apply (proj1 (proj2 (proj2 (proj2 (proj2 C9_remove_selector)))));
    reflexivity.
Defined.

(** The names of the fixtures, and a name with runs of several kinds of
    whitespace (two spaces, then a tab and a line feed). *)
Example removeItem_of_fixtures :
  CartPage.formatItemName Fixtures.backpack_name = "sauce-labs-backpack"
  /\ CartPage.formatItemName Fixtures.redTShirt_name
     = "test.allthethings()-t-shirt-(red)"
  /\ CartPage.formatItemName
       ("Bike  Light" ++ String (ascii_of_nat 9)
                                (String (ascii_of_nat 10) "Red"))
     = "bike-light-red".
Proof. repeat split. Qed.

(* ================================================================= *)
(** ** The URL check of the checkout assertions *)

Section UrlCheck.
Context {World : Type} {driver : Driver World}.

Hypothesis url_reflexive : url_expectation_reflexive (World := World).

Lemma expectCurrentUrl_passes (s : Session World) :
  outcome CheckoutPage.expectCurrentUrl s = Ok tt
  /\ issued CheckoutPage.expectCurrentUrl s
     = [Ev (ToHaveURL (UrlIs (page_url (world s)))) None].
Proof.
  unfold CheckoutPage.expectCurrentUrl, outcome, issued. unfold_base.
  destruct (url_reflexive (world s)) as [w' ->]. reduce.
  trace_norm. split; reflexivity.
Qed.

Lemma after_url_check {A} (k : Task World A) (s : Session World) :
  outcome (CheckoutPage.expectCurrentUrl ;; k) s
  = outcome k (snd (CheckoutPage.expectCurrentUrl s)).
Proof.
  unfold CheckoutPage.expectCurrentUrl, outcome. unfold_base.
  destruct (url_reflexive (world s)) as [w' ->]. reflexivity.
Qed.

End UrlCheck.

(** C10: in [assertCheckoutPage] and [assertOverviewPage] the URL
    expectation is given the URL read from the same page the statement
    before, so on a driver for which a page has the URL it has the check
    always passes, and the outcome of either method is the outcome of its
    title assertion alone.  The same holds of the variant without
    BasePage. *)
Theorem C10_url_check_is_void {World : Type} {driver : Driver World} :
  url_expectation_reflexive ->
  forall s : Session World,
    (outcome CheckoutPage.expectCurrentUrl s = Ok tt
     /\ issued CheckoutPage.expectCurrentUrl s
        = [Ev (ToHaveURL (UrlIs (page_url (world s)))) None])
    /\ outcome CheckoutPage.assertCheckoutPage s
       = outcome (assertElementText ".title" "Checkout: Your Information" None)
                 (snd (CheckoutPage.expectCurrentUrl s))
    /\ outcome CheckoutPage.assertOverviewPage s
       = outcome (assertElementText ".title" "Checkout: Overview" None)
                 (snd (CheckoutPage.expectCurrentUrl s))
    /\ outcome Simple.CheckoutPage_assertCheckoutPage s
       = fst (expect_toHaveText (Loc ".title") "Checkout: Your Information"
                None (world (snd (CheckoutPage.expectCurrentUrl s))))
    /\ outcome Simple.CheckoutPage_assertOverviewPage s
       = fst (expect_toHaveText (Loc ".title") "Checkout: Overview"
                None (world (snd (CheckoutPage.expectCurrentUrl s)))).
Proof.
  intros Hurl s.
  split; [exact (expectCurrentUrl_passes Hurl s)|].
  split; [exact (after_url_check Hurl _ s)|].
  split; [exact (after_url_check Hurl _ s)|].
  unfold Simple.CheckoutPage_assertCheckoutPage,
    Simple.CheckoutPage_assertOverviewPage, CheckoutPage.expectCurrentUrl,
    outcome.
  unfold_base. reduce.
  destruct (Hurl (world s)) as [w' ->]. reduce.
  split.
  - now destruct (expect_toHaveText _ "Checkout: Your Information" _ _).
  - now destruct (expect_toHaveText _ "Checkout: Overview" _ _).
Qed.

Lemma StaticPage_url_reflexive :
  url_expectation_reflexive (World := StaticPage.Page).
Proof.
  intro w. exists w. simpl. unfold StaticPage.check.
  now rewrite String.eqb_refl.
Defined.

(** C10 at work: on the catalogue page, which is no checkout page, the
    URL check passes all the same and the title assertion decides. *)
Lemma C10_url_check_is_void_witness :
  outcome CheckoutPage.expectCurrentUrl (start StaticPage.catalogue) = Ok tt
  /\ issued CheckoutPage.expectCurrentUrl (start StaticPage.catalogue)
     = [Ev (ToHaveURL (UrlIs (page_url (world (start StaticPage.catalogue)))))
           None].
Proof.
  exact (proj1 (C10_url_check_is_void StaticPage_url_reflexive
                  (start StaticPage.catalogue))).
Defined.

(* ================================================================= *)
(** * Further properties of the page objects *)

(** Unfold the variant without BasePage as well. *)
Ltac unfold_direct :=
  unfold Direct.counterpart,
    Direct.Inventory_assertInventoryPage,
    Direct.Inventory_searchItemExistsInInventory, Direct.Inventory_searchItem,
    Direct.Inventory_assertItemInSearchResults,
    Direct.Inventory_assertItemNotInSearchResults,
    Direct.Inventory_verifyFirstItemInList,
    Direct.Inventory_verifyFirstItemPrice, Direct.Inventory_backToProducts,
    Direct.Inventory_clickOnInventoryItem, Direct.Inventory_verifyItemDetails,
    Direct.Inventory_verifyItemDescriptions, Direct.Inventory_verifyItemPrices,
    Direct.Cart_assertCartPage, Direct.Cart_assertCartItemCount,
    Direct.Cart_addItemToCart, Direct.Cart_assertItemAdded,
    Direct.Cart_assertCartIsEmpty, Direct.Cart_assertItemRemoved,
    Direct.Cart_proceedToCheckout, Direct.Cart_goToCart,
    Direct.Checkout_fillCheckoutInfo, Direct.Checkout_finishCheckout,
    Direct.Checkout_assertOrderConfirmation,
    Direct.Checkout_assertErrorMessage, Direct.Checkout_assertOrderSummary,
    Direct.Login_navigate, Direct.Login_assertLoginPage,
    Direct.Login_assertLoginError,
    Direct.toBeVisible, Direct.notToBeVisible, Direct.toHaveText,
    Direct.toHaveCount, Direct.click, Direct.fill, Direct.allTextContents.

Ltac run_both :=
  unfold_direct; unfold_methods;
  unfold InventoryPage.itemNameSelector, InventoryPage.itemPriceSelector,
    InventoryPage.itemDescriptionSelector, InventoryPage.titleSelector,
    InventoryPage.searchInputSelector, InventoryPage.sortDropdownSelector,
    InventoryPage.backToProductsButtonSelector,
    InventoryPage.itemDetailsNameSelector,
    InventoryPage.itemDetailsDescSelector,
    InventoryPage.itemDetailsPriceSelector, InventoryPage.formatPrice,
    CartPage.titleSelector, CartPage.cartBadgeSelector,
    CartPage.cartLinkSelector, CartPage.cartItemsSelector,
    CartPage.checkoutButtonSelector, CartPage.badgeTimeout,
    CartPage.removeButtonSelectorOf, CartPage.formatItemName,
    CheckoutPage.titleSelector, CheckoutPage.firstNameSelector,
    CheckoutPage.lastNameSelector, CheckoutPage.zipCodeSelector,
    CheckoutPage.continueButtonSelector, CheckoutPage.finishButtonSelector,
    CheckoutPage.completeHeaderSelector, CheckoutPage.completeTextSelector,
    CheckoutPage.errorMessageSelector, CheckoutPage.itemNameSelector,
    CheckoutPage.itemPriceSelector, CheckoutPage.itemQuantitySelector,
    LoginPage.loginLogoSelector, LoginPage.usernameSelector,
    LoginPage.passwordSelector, LoginPage.loginButtonSelector,
    LoginPage.errorMessageSelector;
  unfold_base; unfold issued, outcome; exec; trace_norm;
  repeat match goal with a : unit |- _ => destruct a end.

Section Discipline.
Context {World : Type} {driver : Driver World}.
Context {number : Type} {numbers : Numbers number}.

(** X1: a method of a page object that returns has written nothing with
    [console.error]: the console is as it was. *)
Theorem success_is_silent (m : Api.Method number) (s : Session World) :
  outcome (Api.invoke m) s = Ok tt ->
  console (snd (Api.invoke m s)) = console s.
Proof.
  destruct m; run_all; intro H; try discriminate H; reflexivity.
Qed.

(** X2: a method of a page object stops at the first driver call that
    fails: of the calls it issues, only the last can have thrown. *)
Theorem methods_stop_at_first_failure (m : Api.Method number)
    (s : Session World) :
  only_last_fails (issued (Api.invoke m) s).
Proof. destruct m; run_all; simpl; auto 10. Qed.

(** X3: a method of a page object catches nothing for good: when it
    returns, every driver call it issued had returned. *)
Theorem success_means_no_failed_call (m : Api.Method number)
    (s : Session World) :
  outcome (Api.invoke m) s = Ok tt ->
  Forall (fun e => ev_thrown e = None) (issued (Api.invoke m) s).
Proof.
  destruct m; run_all; intro H; try discriminate H;
    repeat constructor.
Qed.

End Discipline.

Section Variants.
Context {World : Type} {driver : Driver World}.
Context {number : Type} {numbers : Numbers number}.

(** X4: but for [fillCheckoutInfo] and [finishCheckout], a method of the
    variant without BasePage does to the browser what its BasePage
    counterpart does: it issues the same driver calls in the same order,
    leaves the browser in the same state, and returns exactly when the
    counterpart returns. *)
Theorem variants_agree (m : Api.Method number) (direct : Task World unit)
    (s : Session World) :
  Direct.counterpart m = Some direct ->
  Direct.acts_unguarded m = false ->
  issued direct s = issued (Api.invoke m) s
  /\ world (snd (direct s)) = world (snd (Api.invoke m s))
  /\ (outcome direct s = Ok tt <-> outcome (Api.invoke m) s = Ok tt).
Proof.
  intros Hc Hu.
  destruct m; try discriminate Hu; try discriminate Hc;
    cbn [Direct.counterpart] in Hc; injection Hc as <-;
    unfold Simple.InventoryPage_selectProductSortOption,
      Simple.CartPage_removeItem, Simple.CheckoutPage_assertCheckoutPage,
      Simple.CheckoutPage_assertOverviewPage;
    run_both;
    (split; [reflexivity|]); (split; [reflexivity|]);
    split; intro H; try discriminate H; reflexivity.
Qed.

(** X5: in the variant without BasePage, [fillCheckoutInfo] and
    [finishCheckout] act on elements they have not waited for: the first
    call of either is a fill or a click, so their calls are never
    wait-then-act. *)
Theorem direct_checkout_acts_unguarded (firstName lastName zip : string)
    (s : Session World) :
  is_prefix
    (map ev_op (issued (Direct.Checkout_fillCheckoutInfo firstName lastName zip) s))
    [Fill (Loc "#first-name") firstName; Fill (Loc "#last-name") lastName;
     Fill (Loc "#postal-code") zip; Click (Loc "#continue")]
  /\ ~ WaitFirst mutates []
         (issued (Direct.Checkout_fillCheckoutInfo firstName lastName zip) s)
  /\ (exists threw,
         issued Direct.Checkout_finishCheckout s
         = [Ev (Click (Loc "#finish")) threw])
  /\ ~ WaitFirst mutates [] (issued Direct.Checkout_finishCheckout s).
Proof.
  unfold is_prefix.
  split; [run_both; simpl; eexists; reflexivity|].
  split; [run_both; simpl; tauto|].
  split; [run_both; eauto|].
  run_both; simpl; tauto.
Qed.

(** X6: a method of the variant without BasePage wraps nothing: the error
    it throws is the very error a driver call of its own threw, or the
    error of a failed list comparison. *)
Theorem direct_methods_throw_the_cause (m : Api.Method number)
    (direct : Task World unit) (s : Session World) (e : Error) :
  Direct.counterpart m = Some direct ->
  outcome direct s = Throw e ->
  (exists op, In (Ev op (Some e)) (issued direct s))
  \/ e = newError "expect(received).toEqual(expected)".
Proof.
  intros Hc.
  destruct m; try discriminate Hc;
    cbn [Direct.counterpart] in Hc; injection Hc as <-;
    unfold Simple.InventoryPage_selectProductSortOption,
      Simple.CartPage_removeItem, Simple.CheckoutPage_assertCheckoutPage,
      Simple.CheckoutPage_assertOverviewPage;
    run_both; intro H; try discriminate H; injection H as <-;
    solve [ right; reflexivity
          | left; eexists; simpl; eauto 10 ].
Qed.

End Variants.

Section Logging.
Context {World : Type} {driver : Driver World}.

(** X7: a failure inside [clickElement] or [fillField] is written to the
    console once for each try block it crosses: a failed wait is reported
    twice, by [waitForElement] and then by the caller with the first
    report's error as its cause, a failed click or fill once, and a
    success not at all. *)
Theorem nested_failures_are_logged_twice (selector value : string)
    (s : Session World) :
  match issued (clickElement selector) s with
  | [Ev _ (Some cause)] =>
      console (snd (clickElement selector s))
      = console s
        ++ [("Error waiting for element " ++ quoted selector
             ++ " to be visible: " ++ toString cause)%string;
            ("Error clicking element " ++ quoted selector ++ ": "
             ++ toString (newError (notVisibleMessage selector None cause)))%string]
  | [_; Ev _ (Some cause)] =>
      console (snd (clickElement selector s))
      = console s
        ++ [("Error clicking element " ++ quoted selector ++ ": "
             ++ toString cause)%string]
  | _ => console (snd (clickElement selector s)) = console s
  end
  /\ match issued (fillField selector value) s with
     | [Ev _ (Some cause)] =>
         console (snd (fillField selector value s))
         = console s
           ++ [("Error waiting for element " ++ quoted selector
                ++ " to be visible: " ++ toString cause)%string;
               ("Error filling field " ++ quoted selector ++ " with value "
                ++ quoted value ++ ": "
                ++ toString (newError (notVisibleMessage selector None cause)))%string]
     | [_; Ev _ (Some cause)] =>
         console (snd (fillField selector value s))
         = console s
           ++ [("Error filling field " ++ quoted selector ++ " with value "
                ++ quoted value ++ ": " ++ toString cause)%string]
     | _ => console (snd (fillField selector value s)) = console s
     end.
Proof.
  split; run_all; rewrite <- ?app_assoc; reflexivity.
Qed.

(** X8: a substring that is no valid pattern never reaches the driver:
    [assertUrlContains] issues no call, leaves the browser as it is, and
    throws the URL mismatch with the page's URL and the constructor's
    error as its cause. *)
Theorem malformed_pattern_is_a_url_mismatch (urlSubstring : string)
    (cause : Error) (s : Session World) :
  new_RegExp urlSubstring = Throw cause ->
  issued (assertUrlContains urlSubstring) s = []
  /\ world (snd (assertUrlContains urlSubstring s)) = world s
  /\ outcome (assertUrlContains urlSubstring) s
     = Throw (newError
                ("URL does not contain " ++ quoted urlSubstring
                 ++ ". Current URL: " ++ page_url (world s)
                 ++ ". Error: " ++ toString cause)%string).
Proof.
  intro E. unfold issued, outcome. unfold_base. rewrite E. reduce.
  rewrite <- (app_nil_r (calls s)) at 2. rewrite skipn_length_app.
  repeat split.
Qed.

(** X9: [login] types the user name, then the password, then clicks the
    button, each after a wait for its element, and goes no further than
    the first failure: the password is not typed into a page whose user
    name field could not be filled. *)
Theorem login_order (username password : string) (s : Session World) :
  is_prefix (map ev_op (issued (LoginPage.login username password) s))
            (loggedIn username password)
  /\ (outcome (LoginPage.login username password) s = Ok tt ->
      issued (LoginPage.login username password) s
      = map (fun op => Ev op None) (loggedIn username password)).
Proof.
  unfold is_prefix, loggedIn.
  run_all; simpl;
    (split; [eexists; reflexivity | intro; try discriminate; reflexivity]).
Qed.

End Logging.

(* ================================================================= *)
(** ** Further properties of the strings and the lists *)

Section FormattedNames.

Lemma lower_unit_keeps_space (c : ascii) :
  is_space (lower_unit c) = is_space c.
Proof. destruct c as [[] [] [] [] [] [] [] []]; reflexivity. Qed.

Lemma lower_unit_not_upper (c : ascii) : is_upper (lower_unit c) = false.
Proof. destruct c as [[] [] [] [] [] [] [] []]; reflexivity. Qed.

Lemma toLowerCase_no_upper (s : string) :
  string_forall (fun c => negb (is_upper c)) (toLowerCase s) = true.
Proof.
  induction s as [|c s IH]; simpl; [reflexivity|].
  now rewrite lower_unit_not_upper, IH.
Qed.

Lemma toLowerCase_fixed (s : string) :
  string_forall (fun c => negb (is_upper c)) s = true -> toLowerCase s = s.
Proof.
  induction s as [|c s IH]; simpl; [reflexivity|].
  intro H. apply andb_true_iff in H as [Hc Hs].
  apply negb_true_iff in Hc. now rewrite (lower_unit_fixed c Hc), IH.
Qed.

Lemma replace_hyphen_clean (in_run : bool) (s : string) :
  string_forall (fun c => negb (is_upper c)) s = true ->
  string_forall (fun c => negb (is_space c) && negb (is_upper c))
                (replace_space_runs "-" in_run s) = true.
Proof.
  revert in_run. induction s as [|c s IH]; intros in_run H; simpl;
    [reflexivity|].
  simpl in H. apply andb_true_iff in H as [Hc Hs].
  destruct (is_space c) eqn:Ec.
  - destruct in_run; simpl; auto.
  - simpl. now rewrite Ec, Hc, IH.
Qed.

Lemma replace_space_runs_fixed (rep : string) (in_run : bool) (s : string) :
  string_forall (fun c => negb (is_space c)) s = true ->
  replace_space_runs rep in_run s = s.
Proof.
  revert in_run. induction s as [|c s IH]; intros in_run H; simpl;
    [reflexivity|].
  simpl in H. apply andb_true_iff in H as [Hc Hs].
  apply negb_true_iff in Hc. now rewrite Hc, IH.
Qed.

Lemma string_forall_weaken (p q : ascii -> bool) (s : string) :
  (forall c, p c = true -> q c = true) ->
  string_forall p s = true -> string_forall q s = true.
Proof.
  intro Hpq. induction s as [|c s IH]; simpl; [reflexivity|].
  intro H. apply andb_true_iff in H as [Hc Hs].
  now rewrite (Hpq c Hc), IH.
Qed.

End FormattedNames.

(** X10: the formatted item name holds no whitespace and no capital, and
    formatting is idempotent and blind to case: a name and its lower-case
    form give the same remove selector. *)
Theorem formatItemName_normal_form (itemName : string) :
  string_forall (fun c => negb (is_space c) && negb (is_upper c))
                (CartPage.formatItemName itemName) = true
  /\ CartPage.formatItemName (CartPage.formatItemName itemName)
     = CartPage.formatItemName itemName
  /\ CartPage.formatItemName (toLowerCase itemName)
     = CartPage.formatItemName itemName
  /\ CartPage.removeButtonSelectorOf (toLowerCase itemName)
     = CartPage.removeButtonSelectorOf itemName.
Proof.
  assert (Hclean :
    string_forall (fun c => negb (is_space c) && negb (is_upper c))
                  (CartPage.formatItemName itemName) = true).
  { apply replace_hyphen_clean, toLowerCase_no_upper. }
  assert (Hlow : toLowerCase (toLowerCase itemName) = toLowerCase itemName).
  { apply toLowerCase_fixed, toLowerCase_no_upper. }
  split; [exact Hclean|]. split; [|split].
  - unfold CartPage.formatItemName at 1.
    rewrite toLowerCase_fixed.
    + apply replace_space_runs_fixed.
      eapply string_forall_weaken; [|exact Hclean].
      intros c H. now apply andb_true_iff in H as [-> _].
    + eapply string_forall_weaken; [|exact Hclean].
      intros c H. now apply andb_true_iff in H as [_ ->].
  - unfold CartPage.formatItemName. now rewrite Hlow.
  - unfold CartPage.removeButtonSelectorOf, CartPage.formatItemName.
    now rewrite Hlow.
Qed.

(** X11: [formatPrice] takes off one dollar sign, the first, wherever it
    stands, and nothing when there is none: a price without the sign is
    parsed as it is, and a second sign stays in what is parsed. *)
Theorem formatPrice_first_dollar_only
    {number : Type} {numbers : Numbers number} (a b : string) :
  occurs "$" a = false ->
  InventoryPage.formatPrice a = parseFloat a
  /\ InventoryPage.formatPrice (a ++ String "$" b) = parseFloat (a ++ b)%string.
Proof.
  intro H. unfold InventoryPage.formatPrice.
  assert (H1 : replaceFirst "$" EmptyString a = a).
  { induction a as [|c a IH]; simpl in *; [reflexivity|].
    apply orb_false_iff in H as [Hc Ha]. now rewrite Hc, IH. }
  assert (H2 : replaceFirst "$" EmptyString (a ++ String "$" b)
               = (a ++ b)%string).
  { clear H1. induction a as [|c a IH]; simpl in *; [reflexivity|].
    apply orb_false_iff in H as [Hc Ha]. now rewrite Hc, IH. }
  now rewrite H1, H2.
Qed.

(** A price said in words and dollars: the sign goes, the words stay. *)
Lemma formatPrice_first_dollar_only_witness :
  InventoryPage.formatPrice (number := Decimal.decimal) "USD "
  = parseFloat "USD "
  /\ InventoryPage.formatPrice (number := Decimal.decimal)
       ("USD " ++ String "$" "5") = parseFloat ("USD " ++ "5")%string.
Proof.
  apply (formatPrice_first_dollar_only "USD " "5"). reflexivity.
Defined.

Section Descriptions.
Context {World : Type} {driver : Driver World}.
Context {number : Type} {numbers : Numbers number}.
Import InventoryPage.

(** X12: [verifyItemDescriptions] passes exactly when the names on the
    page are the expected names and the descriptions on the page are the
    expected descriptions, position by position; it does not look at the
    prices, so two expected lists that differ in prices only fare the
    same. *)
Theorem verifyItemDescriptions_all_or_nothing
    (expected : list (Item number)) (s : Session World)
    (names descriptions : list string) (w1 w2 : World) :
  locator_allTextContents (Loc ".inventory_item_name") (world s)
  = (Ok names, w1) ->
  locator_allTextContents (Loc ".inventory_item_desc") w1
  = (Ok descriptions, w2) ->
  (outcome (verifyItemDescriptions expected) s = Ok tt
   <-> names = map item_name expected
       /\ descriptions = map item_description expected)
  /\ (outcome (verifyItemDescriptions expected) s <> Ok tt ->
      outcome (verifyItemDescriptions expected) s
      = Throw (newError "expect(received).toEqual(expected)"))
  /\ (forall expected' : list (Item number),
         map item_name expected' = map item_name expected ->
         map item_description expected' = map item_description expected ->
         outcome (verifyItemDescriptions expected') s
         = outcome (verifyItemDescriptions expected) s).
Proof.
  intros H1 H2.
  assert (Hout : forall items : list (Item number),
    outcome (verifyItemDescriptions items) s
    = if list_eqb String.eqb names (map item_name items)
         && list_eqb String.eqb descriptions (map item_description items)
      then Ok tt
      else Throw (newError "expect(received).toEqual(expected)")).
  { intro items.
    unfold verifyItemDescriptions, itemNameSelector, itemDescriptionSelector.
    unfold_base. unfold outcome. reduce.
    rewrite H1. reduce. rewrite H2. reduce.
    destruct (list_eqb String.eqb names _); reduce;
      [destruct (list_eqb String.eqb descriptions _); reduce|];
      reflexivity. }
  assert (Heq : forall (xs ys : list string),
             list_eqb String.eqb xs ys = true <-> xs = ys).
  { induction xs as [|x xs IH]; intros [|y ys]; simpl;
      try (split; [discriminate | intro E; discriminate E]);
      [split; reflexivity|].
    rewrite andb_true_iff, String.eqb_eq, IH.
    split; [intros [-> ->]; reflexivity | intros [= -> ->]; now split]. }
  split; [|split].
  - rewrite Hout, <- !Heq, <- andb_true_iff.
    destruct (_ && _); split; congruence.
  - rewrite Hout. destruct (_ && _); congruence.
  - intros expected' Hn Hd. now rewrite !Hout, Hn, Hd.
Qed.

End Descriptions.

(** The descriptions of the catalogue page against the right list. *)
Lemma verifyItemDescriptions_all_or_nothing_witness :
  outcome (InventoryPage.verifyItemDescriptions Examples.catalogueItems)
          (start StaticPage.catalogue) = Ok tt.
Proof.
  assert (H1 : locator_allTextContents (Loc ".inventory_item_name")
                 (world (start StaticPage.catalogue))
               = (Ok ["Sauce Labs Backpack"; "Sauce Labs Bike Light"],
                  StaticPage.catalogue)) by reflexivity.
  assert (H2 : locator_allTextContents (Loc ".inventory_item_desc")
                 StaticPage.catalogue
               = (Ok ["carry.allTheThings()"; "A red light"],
                  StaticPage.catalogue)) by reflexivity.
  apply (proj1 (verifyItemDescriptions_all_or_nothing
                  Examples.catalogueItems (start StaticPage.catalogue)
                  _ _ _ _ H1 H2)).
  split; reflexivity.
Defined.

(* ================================================================= *)
(** ** The further properties at work *)

(** Opening the cart from the catalogue page writes nothing. *)
Lemma success_is_silent_witness :
  console (snd (Api.invoke (number := Decimal.decimal) (Api.Cart_goToCart _)
                  (start StaticPage.catalogue)))
  = console (start StaticPage.catalogue).
Proof. apply success_is_silent. reflexivity. Defined.

Lemma success_means_no_failed_call_witness :
  Forall (fun e => ev_thrown e = None)
         (issued (Api.invoke (number := Decimal.decimal) (Api.Cart_goToCart _))
                 (start StaticPage.catalogue)).
Proof. apply success_means_no_failed_call. reflexivity. Defined.

(** Both variants of [goToCart] on the catalogue page. *)
Lemma variants_agree_witness :
  issued Direct.Cart_goToCart (start StaticPage.catalogue)
  = issued (Api.invoke (number := Decimal.decimal) (Api.Cart_goToCart _))
           (start StaticPage.catalogue)
  /\ world (snd (Direct.Cart_goToCart (start StaticPage.catalogue)))
     = world (snd (Api.invoke (number := Decimal.decimal)
                     (Api.Cart_goToCart _) (start StaticPage.catalogue)))
  /\ (outcome Direct.Cart_goToCart (start StaticPage.catalogue) = Ok tt
      <-> outcome (Api.invoke (number := Decimal.decimal)
                     (Api.Cart_goToCart _))
                  (start StaticPage.catalogue) = Ok tt).
Proof. apply variants_agree; reflexivity. Defined.

(** An option the dropdown does not offer: the driver's error comes out
    as it is. *)
Lemma direct_methods_throw_the_cause_witness :
  (exists op,
      In (Ev op (Some (StaticPage.timedOut "selectOption")))
         (issued (Simple.InventoryPage_selectProductSortOption "Price")
                 (start StaticPage.catalogue)))
  \/ StaticPage.timedOut "selectOption"
     = newError "expect(received).toEqual(expected)".
Proof.
  apply (direct_methods_throw_the_cause (number := Decimal.decimal)
           (Api.Inventory_selectProductSortOption _ "Price"));
    reflexivity.
Defined.

(** An open bracket is no pattern. *)
Lemma malformed_pattern_is_a_url_mismatch_witness :
  issued (assertUrlContains "(") (start StaticPage.catalogue) = []
  /\ world (snd (assertUrlContains "(" (start StaticPage.catalogue)))
     = world (start StaticPage.catalogue)
  /\ outcome (assertUrlContains "(") (start StaticPage.catalogue)
     = Throw (newError
                ("URL does not contain " ++ quoted "("
                 ++ ". Current URL: "
                 ++ page_url (world (start StaticPage.catalogue))
                 ++ ". Error: "
                 ++ toString
                      (mkError "SyntaxError"
                         "Invalid regular expression: /(/"))%string).
Proof. apply malformed_pattern_is_a_url_mismatch. reflexivity. Defined.

(** A login on a page that shows the three elements. *)
Lemma login_order_witness :
  issued (LoginPage.login "standard_user" "secret_sauce")
         (start (StaticPage.mkPage "https://www.saucedemo.com/"
                   [ StaticPage.mkElement ["#user-name"] EmptyString true [];
                     StaticPage.mkElement ["#password"] EmptyString true [];
                     StaticPage.mkElement ["#login-button"] "Login" true [] ]))
  = map (fun op => Ev op None) (loggedIn "standard_user" "secret_sauce").
Proof. apply login_order. reflexivity. Defined.

(* ================================================================= *)
(** * Properties of the helpers *)

From Stdlib Require DecimalZ DecimalPos.

Section Truncate.
Import Helpers.

Lemma substring_0_length (n : nat) (s : string) :
  String.length (substring 0 n s) = Nat.min n (String.length s).
Proof.
  revert n. induction s as [|c s IH]; intros [|n]; simpl; auto.
Qed.

Lemma substring_0_all (n : nat) (s : string) :
  (String.length s <= n)%nat -> substring 0 n s = s.
Proof.
  revert n. induction s as [|c s IH]; intros [|n]; simpl; intro H;
    try reflexivity; try lia.
  f_equal. apply IH. lia.
Qed.

Lemma substring_0_app (n : nat) (s t : string) :
  (n <= String.length s)%nat ->
  substring 0 n (s ++ t) = substring 0 n s.
Proof.
  revert n. induction s as [|c s IH]; intros [|n]; simpl; intro H;
    try reflexivity; try lia.
  - now destruct t.
  - f_equal. apply IH. lia.
Qed.

Lemma length_append (s t : string) :
  String.length (s ++ t) = (String.length s + String.length t)%nat.
Proof. induction s; simpl; auto. Qed.

(** What [truncate] does to a text that does not fit. *)
Lemma truncate_cut (text : string) (maxLength : Z) :
  (maxLength < Z.of_nat (String.length text))%Z ->
  truncate text maxLength
  = (substring 0 (Z.to_nat (relative_index
                              (Z.of_nat (String.length text)) maxLength))
               text ++ "...")%string.
Proof.
  intro H. unfold truncate, string_slice.
  destruct (Z.leb_spec (Z.of_nat (String.length text)) maxLength); [lia|].
  change (relative_index (Z.of_nat (String.length text)) 0)
    with (Z.min 0 (Z.of_nat (String.length text))).
  rewrite Z.min_l by lia. now rewrite Z.sub_0_r.
Qed.

(** X13: [truncate] returns a text that fits as it is; of a longer one
    it keeps the first [maxLength] characters and adds three dots, so the
    result is [maxLength + 3] long: longer than [maxLength], and longer
    than the text itself when fewer than three characters were cut. *)
Theorem truncate_adds_three (text : string) (maxLength : Z) :
  ((Z.of_nat (String.length text) <= maxLength)%Z ->
   truncate text maxLength = text)
  /\ ((0 <= maxLength < Z.of_nat (String.length text))%Z ->
      truncate text maxLength
      = (substring 0 (Z.to_nat maxLength) text ++ "...")%string
      /\ Z.of_nat (String.length (truncate text maxLength))
         = (maxLength + 3)%Z
      /\ ((Z.of_nat (String.length text) < maxLength + 3)%Z ->
          (String.length text
           < String.length (truncate text maxLength))%nat)).
Proof.
  split.
  - intro H. unfold truncate.
    now destruct (Z.leb_spec (Z.of_nat (String.length text)) maxLength);
      [|lia].
  - intros [H0 H1].
    assert (E : truncate text maxLength
                = (substring 0 (Z.to_nat maxLength) text ++ "...")%string).
    { rewrite truncate_cut by lia. unfold relative_index.
      destruct (Z.ltb_spec maxLength 0); [lia|].
      now rewrite Z.min_l by lia. }
    assert (L : Z.of_nat (String.length (truncate text maxLength))
                = (maxLength + 3)%Z).
    { rewrite E, length_append, substring_0_length. simpl. lia. }
    split; [exact E|]. split; [exact L|]. lia.
Qed.

(** X14: truncating twice to the same length, not negative, is
    truncating once. *)
Theorem truncate_idempotent (text : string) (maxLength : Z) :
  (0 <= maxLength)%Z ->
  truncate (truncate text maxLength) maxLength = truncate text maxLength.
Proof.
  intro H0.
  destruct (Z.leb_spec (Z.of_nat (String.length text)) maxLength) as [Hfit|Hcut].
  - now rewrite !(proj1 (truncate_adds_three text maxLength) Hfit).
  - destruct (proj2 (truncate_adds_three text maxLength) (conj H0 Hcut))
      as (E & L & _).
    destruct (proj2 (truncate_adds_three (truncate text maxLength) maxLength))
      as (E' & _); [lia|].
    rewrite E'. rewrite E at 1.
    rewrite substring_0_app.
    + rewrite (substring_0_all (Z.to_nat maxLength)
                 (substring 0 (Z.to_nat maxLength) text)).
      * now rewrite E.
      * rewrite substring_0_length. lia.
    + rewrite substring_0_length. lia.
Qed.

(** X15: a negative [maxLength] is no error: it counts from the end, so
    the last [- maxLength] characters are cut and three dots added, even
    to an empty text. *)
Theorem truncate_negative_cuts_the_end (text : string) (maxLength : Z) :
  (maxLength < 0)%Z ->
  truncate text maxLength
  = (substring 0 (String.length text - Z.to_nat (- maxLength)) text
     ++ "...")%string.
Proof.
  intro H. rewrite truncate_cut by lia. unfold relative_index.
  destruct (Z.ltb_spec maxLength 0); [|lia].
  repeat f_equal. lia.
Qed.

End Truncate.

Lemma truncate_adds_three_witness :
  Helpers.truncate "Sauce Labs Backpack" 5 = "Sauce..."
  /\ (String.length "abcd" < String.length (Helpers.truncate "abcd" 3))%nat.
Proof.
  destruct (proj2 (truncate_adds_three "abcd" 3)) as (_ & _ & H);
    [simpl; lia|].
  split; [|apply H; simpl; lia].
  rewrite (proj1 (proj2 (truncate_adds_three "Sauce Labs Backpack" 5)
                        ltac:(simpl; lia))).
  reflexivity.
Defined.

Lemma truncate_idempotent_witness :
  Helpers.truncate (Helpers.truncate "Sauce Labs Backpack" 5) 5
  = Helpers.truncate "Sauce Labs Backpack" 5.
Proof. apply truncate_idempotent. lia. Defined.

Lemma truncate_negative_cuts_the_end_witness :
  Helpers.truncate "Backpack" (-4) = "Back...".
Proof.
  rewrite (truncate_negative_cuts_the_end "Backpack" (-4)); [reflexivity|lia].
Defined.

Section RemoveDuplicates.
Import Helpers.
Context {T : Type} (same : T -> T -> bool).
Hypothesis same_eq : forall x y, same x y = true <-> x = y.

Lemma existsb_same (x : T) (l : list T) :
  existsb (same x) l = true <-> In x l.
Proof.
  rewrite existsb_exists. split.
  - intros (y & Hy & E). apply same_eq in E. now subst.
  - intro H. exists x. split; [exact H | now apply same_eq].
Qed.

Lemma set_add_in (set : list T) (x y : T) :
  In y (set_add same set x) <-> In y set \/ y = x.
Proof.
  unfold set_add. destruct (existsb (same x) set) eqn:E.
  - apply existsb_same in E. split; [auto | intros [H| ->]; auto].
  - rewrite in_app_iff. simpl. intuition.
Qed.

Lemma set_add_nodup (set : list T) (x : T) :
  NoDup set -> NoDup (set_add same set x).
Proof.
  intro H. unfold set_add. destruct (existsb (same x) set) eqn:E; [exact H|].
  assert (Hx : ~ In x set).
  { intro Hin. apply existsb_same in Hin. congruence. }
  clear E. induction H as [|y set Hy H IH]; simpl.
  - constructor; [intros []|constructor].
  - constructor.
    + rewrite in_app_iff. simpl. intros [Hin|[->|[]]]; [auto|].
      apply Hx. now left.
    + apply IH. intro Hin. apply Hx. now right.
Qed.

Lemma fold_set_add_in (l set : list T) (y : T) :
  In y (fold_left (set_add same) l set) <-> In y set \/ In y l.
Proof.
  revert set. induction l as [|x l IH]; intro set; simpl; [tauto|].
  rewrite IH, set_add_in. intuition.
Qed.

Lemma fold_set_add_nodup (l set : list T) :
  NoDup set -> NoDup (fold_left (set_add same) l set).
Proof.
  revert set. induction l as [|x l IH]; intros set H; simpl; [exact H|].
  apply IH, set_add_nodup, H.
Qed.

Lemma fold_set_add_fixed (l set : list T) :
  NoDup (set ++ l) -> fold_left (set_add same) l set = set ++ l.
Proof.
  revert set. induction l as [|x l IH]; intros set H; simpl.
  - now rewrite app_nil_r.
  - assert (Hx : existsb (same x) set = false).
    { destruct (existsb (same x) set) eqn:E; [|reflexivity].
      apply existsb_same in E. apply NoDup_remove_2 in H.
      exfalso. apply H. rewrite in_app_iff. now left. }
    unfold set_add at 2. rewrite Hx.
    rewrite IH; rewrite <- app_assoc; [reflexivity | exact H].
Qed.

Lemma fold_set_add_length (l set : list T) :
  (length (fold_left (set_add same) l set) <= length set + length l)%nat.
Proof.
  revert set. induction l as [|x l IH]; intro set; simpl; [lia|].
  specialize (IH (set_add same set x)). unfold set_add in *.
  destruct (existsb (same x) set); [lia|].
  rewrite length_app in IH. simpl in IH. lia.
Qed.

(** X16: [removeDuplicates] keeps one copy of every element, the first,
    in the order of the first occurrences: the result has no duplicates
    and the same members, is no longer than the array, and an element
    appended to the array is appended to the result exactly when it is
    new. *)
Theorem removeDuplicates_keeps_first_occurrences (array : list T) :
  NoDup (removeDuplicates same array)
  /\ (forall x, In x (removeDuplicates same array) <-> In x array)
  /\ (length (removeDuplicates same array) <= length array)%nat
  /\ (forall x,
         removeDuplicates same (array ++ [x])
         = if existsb (same x) array
           then removeDuplicates same array
           else removeDuplicates same array ++ [x]).
Proof.
  unfold removeDuplicates, new_Set.
  split; [apply fold_set_add_nodup; constructor|].
  split; [intro x; rewrite fold_set_add_in; simpl; tauto|].
  split; [apply (fold_set_add_length array [])|].
  intro x. rewrite fold_left_app. simpl. unfold set_add at 1.
  destruct (existsb (same x) array) eqn:E.
  - apply existsb_same in E.
    assert (H : In x (fold_left (set_add same) array [])).
    { apply fold_set_add_in. now right. }
    apply existsb_same in H. now rewrite H.
  - destruct (existsb (same x) (fold_left (set_add same) array [])) eqn:E';
      [|reflexivity].
    apply existsb_same, fold_set_add_in in E'. destruct E' as [[]|E'].
    apply existsb_same in E'. congruence.
Qed.

(** X17: an array without duplicates comes back as it is, so removing
    duplicates twice is removing them once. *)
Theorem removeDuplicates_fixes_duplicate_free (array : list T) :
  (NoDup array -> removeDuplicates same array = array)
  /\ removeDuplicates same (removeDuplicates same array)
     = removeDuplicates same array.
Proof.
  assert (H : forall l, NoDup l -> removeDuplicates same l = l).
  { intros l Hl. unfold removeDuplicates, new_Set.
    now rewrite fold_set_add_fixed. }
  split; [apply H|].
  apply H. unfold removeDuplicates, new_Set.
  apply fold_set_add_nodup. constructor.
Qed.

End RemoveDuplicates.

Lemma Z_eqb_same : forall x y : Z, Z.eqb x y = true <-> x = y.
Proof. intros. apply Z.eqb_eq. Defined.

Lemma removeDuplicates_keeps_first_occurrences_witness :
  NoDup (Helpers.removeDuplicates Z.eqb [3; 1; 3; 2; 1]%Z)
  /\ Helpers.removeDuplicates Z.eqb [3; 1; 3; 2; 1]%Z = [3; 1; 2]%Z.
Proof.
  split; [|reflexivity].
  exact (proj1 (removeDuplicates_keeps_first_occurrences Z.eqb Z_eqb_same
                  [3; 1; 3; 2; 1]%Z)).
Defined.

Lemma removeDuplicates_fixes_duplicate_free_witness :
  Helpers.removeDuplicates Z.eqb
    (Helpers.removeDuplicates Z.eqb [3; 1; 3; 2; 1]%Z)
  = Helpers.removeDuplicates Z.eqb [3; 1; 3; 2; 1]%Z.
Proof.
  exact (proj2 (removeDuplicates_fixes_duplicate_free Z.eqb Z_eqb_same
                  [3; 1; 3; 2; 1]%Z)).
Defined.

Section ChunkArray.
Import Helpers.
Context {T : Type}.

(** A slice that starts inside the array and has a positive size. *)
Lemma array_slice_chunk (a : list T) (n : nat) (size : Z) :
  (0 < size)%Z -> (n < length a)%nat ->
  array_slice a (Z.of_nat n) (Z.of_nat n + size)
  = firstn (Z.to_nat size) (skipn n a).
Proof.
  intros Hs Hn. unfold array_slice, relative_index.
  destruct (Z.ltb_spec (Z.of_nat n) 0); [lia|].
  destruct (Z.ltb_spec (Z.of_nat n + size) 0); [lia|].
  rewrite (Z.min_l (Z.of_nat n)) by lia. rewrite Nat2Z.id.
  destruct (Z.le_ge_cases (Z.of_nat n + size) (Z.of_nat (length a))) as [H1|H1].
  - rewrite Z.min_l by lia. f_equal. lia.
  - rewrite Z.min_r by lia.
    rewrite !firstn_all2; [reflexivity | |]; rewrite length_skipn; lia.
Qed.

Lemma full_but_last_nonempty (sz : nat) (c : list T) (rest : list (list T)) :
  (1 <= sz)%nat -> full_but_last sz (c :: rest) -> c <> [].
Proof.
  intros Hsz H Hc. subst c. simpl in H. destruct rest; simpl in H; lia.
Qed.

Lemma chunk_loop_returns (a : list T) (size : Z) :
  (0 < size)%Z ->
  forall (fuel n : nat) (result : list (list T)),
    (length a - n < fuel)%nat ->
    exists chunks,
      chunk_loop fuel a size (Z.of_nat n) result = Some (result ++ chunks)
      /\ concat chunks = skipn n a
      /\ full_but_last (Z.to_nat size) chunks
      /\ (length chunks * Z.to_nat size
          < length a - n + Z.to_nat size)%nat
      /\ (length a - n <= length chunks * Z.to_nat size)%nat.
Proof.
  intro Hs. induction fuel as [|fuel IH]; intros n result Hf; [lia|].
  simpl. destruct (Z.ltb_spec (Z.of_nat n) (Z.of_nat (length a))) as [Hn|Hn].
  - rewrite array_slice_chunk by lia.
    replace (Z.of_nat n + size)%Z with (Z.of_nat (n + Z.to_nat size)) by lia.
    destruct (IH (n + Z.to_nat size)%nat
                 (result ++ [firstn (Z.to_nat size) (skipn n a)]))
      as (chunks & E & Hc & Hfull & Hup & Hlow); [lia|].
    exists (firstn (Z.to_nat size) (skipn n a) :: chunks).
    split; [now rewrite E, <- app_assoc|].
    split.
    { simpl. rewrite Hc.
      replace (n + Z.to_nat size)%nat with (Z.to_nat size + n)%nat by lia.
      rewrite <- skipn_skipn. apply firstn_skipn. }
    assert (Hlen : length (firstn (Z.to_nat size) (skipn n a))
                   = Nat.min (Z.to_nat size) (length a - n)).
    { now rewrite length_firstn, length_skipn. }
    split.
    { simpl. destruct chunks as [|c' rest].
      - rewrite Hlen. lia.
      - split; [|exact Hfull].
        assert (Hne : c' <> []) by (eapply full_but_last_nonempty;
                                    [|exact Hfull]; lia).
        assert (Hsk : skipn (n + Z.to_nat size) a <> []).
        { rewrite <- Hc. simpl. destruct c'; [congruence|discriminate]. }
        assert (n + Z.to_nat size < length a)%nat.
        { destruct (Nat.lt_ge_cases (n + Z.to_nat size) (length a));
            [assumption|].
          exfalso. apply Hsk. now apply skipn_all2. }
        rewrite Hlen. lia. }
    cbn [length]. rewrite Nat.mul_succ_l.
    assert (Hn' : (n < length a)%nat) by lia.
    destruct (Nat.le_gt_cases (n + Z.to_nat size) (length a)) as [Hle|Hgt].
    + split; lia.
    + assert (length chunks = 0)%nat by nia. split; nia.
  - exists []. rewrite app_nil_r. split; [reflexivity|].
    split; [symmetry; apply skipn_all2; lia|].
    split; [exact I|]. simpl. lia.
Qed.

(** X18: with a positive size [chunkArray] returns, and the chunks it
    returns are the array cut in order: joined they give the array back,
    every chunk but the last is [size] long, the last is not empty, and
    there are as many as the length divided by the size, rounded up. *)
Theorem chunkArray_partitions (array : list T) (size : Z) :
  (0 < size)%Z ->
  exists chunks,
    (forall fuel, (length array < fuel)%nat ->
                  chunkArray fuel array size = Some chunks)
    /\ concat chunks = array
    /\ full_but_last (Z.to_nat size) chunks
    /\ (Z.of_nat (length chunks)
        = (Z.of_nat (length array) + size - 1) / size)%Z.
Proof.
  intro Hs.
  destruct (chunk_loop_returns array size Hs (S (length array)) 0 [])
    as (chunks & E & Hc & Hfull & Hup & Hlow); [lia|].
  exists chunks. split; [|split; [exact Hc|split; [exact Hfull|]]].
  - intros fuel Hf.
    destruct (chunk_loop_returns array size Hs fuel 0 [])
      as (chunks' & E' & Hc' & _); [lia|].
    unfold chunkArray. change (Z.of_nat 0) with 0%Z in E'. rewrite E'.
    f_equal. simpl.
    (* both lists of chunks are the loop's result *)
    assert (forall f1 f2 i r c1 c2,
               chunk_loop f1 array size i r = Some c1 ->
               chunk_loop f2 array size i r = Some c2 -> c1 = c2) as Hdet.
    { induction f1 as [|f1 IHf]; intros [|f2] i r c1 c2; simpl;
        try discriminate.
      destruct (i <? Z.of_nat (length array))%Z; [apply IHf | congruence]. }
    change (Z.of_nat 0) with 0%Z in E.
    exact (Hdet _ _ _ _ _ _ E' E).
  - rewrite Nat.sub_0_r in Hup, Hlow.
    apply (Z.div_unique_pos _ _ _
      (Z.of_nat (length array) + size - 1
       - size * Z.of_nat (length chunks))); nia.
Qed.

(** X19: an empty array gives no chunk, whatever the size; with a size
    of zero or less and an array that is not empty the loop never ends. *)
Theorem chunkArray_needs_positive_size (array : list T) (size : Z) :
  (forall fuel, chunkArray (S fuel) [] size = Some (@nil (list T)))
  /\ ((size <= 0)%Z -> array <> [] ->
      forall fuel, chunkArray fuel array size = None).
Proof.
  split; [reflexivity|].
  intros Hs Ha.
  assert (H : forall fuel i result,
             (i <= 0)%Z -> chunk_loop fuel array size i result = None).
  { induction fuel as [|fuel IH]; intros i result Hi; simpl; [reflexivity|].
    destruct (Z.ltb_spec i (Z.of_nat (length array))) as [_|Hge].
    - apply IH. lia.
    - destruct array; [congruence | simpl in Hge; lia]. }
  intro fuel. apply H. lia.
Qed.

End ChunkArray.

Lemma chunkArray_partitions_witness :
  exists chunks,
    Helpers.chunkArray 6 [1; 2; 3; 4; 5]%Z 2 = Some chunks
    /\ concat chunks = [1; 2; 3; 4; 5]%Z
    /\ Helpers.full_but_last 2 chunks
    /\ (Z.of_nat (length chunks) = (5 + 2 - 1) / 2)%Z.
Proof.
  destruct (chunkArray_partitions [1; 2; 3; 4; 5]%Z 2 eq_refl)
    as (chunks & Hret & Hrest).
  exists chunks. split; [apply Hret; simpl; lia | exact Hrest].
Defined.

Lemma chunkArray_needs_positive_size_witness :
  Helpers.chunkArray 1000 [1; 2]%Z 0 = None.
Proof.
  apply (proj2 (chunkArray_needs_positive_size [1; 2]%Z 0%Z)).
  - discriminate.
  - discriminate.
Defined.

Example chunkArray_runs :
  Helpers.chunkArray 6 [1; 2; 3; 4; 5]%Z 2 = Some [[1; 2]; [3; 4]; [5]]%Z.
Proof. reflexivity. Qed.

Section FormatDate.
Import Helpers.

Lemma numberToString_injective (a b : Z) :
  numberToString a = numberToString b -> a = b.
Proof.
  unfold numberToString. intro H.
  apply DecimalZ.to_int_inj.
  assert (R : forall z,
             NilZero.int_of_string (NilZero.string_of_int (Z.to_int z))
             = Some (Z.to_int z)).
  { intro z. apply NilZero.isi; destruct z; simpl; try discriminate;
      intros [= E]; exact (DecimalPos.Unsigned.to_uint_nonnil _ E). }
  pose proof (R a) as Ia. rewrite H, R in Ia. congruence.
Qed.

(** Two digits, the first a zero when the number has one. *)
Lemma padStart_two_digits (n : Z) :
  (0 <= n <= 99)%Z ->
  padStart 2 "0" (numberToString n)
  = String (digit_unit (n / 10)) (String (digit_unit (n mod 10)) EmptyString).
Proof.
  intro H.
  assert (All : forallb
            (fun k =>
               String.eqb
                 (padStart 2 "0" (numberToString (Z.of_nat k)))
                 (String (digit_unit (Z.of_nat k / 10))
                    (String (digit_unit (Z.of_nat k mod 10)) EmptyString)))
            (seq 0 100) = true) by (vm_compute; reflexivity).
  rewrite forallb_forall in All.
  specialize (All (Z.to_nat n)). rewrite Z2Nat.id in All by lia.
  apply String.eqb_eq, All, in_seq. lia.
Qed.

Lemma digit_unit_injective (j k : Z) :
  (0 <= j <= 9)%Z -> (0 <= k <= 9)%Z -> digit_unit j = digit_unit k -> j = k.
Proof.
  intros Hj Hk E. unfold digit_unit in E.
  apply (f_equal nat_of_ascii) in E.
  rewrite !nat_ascii_embedding in E by lia. lia.
Qed.

Lemma two_digits_bounds (n : Z) :
  (0 <= n <= 99)%Z -> (0 <= n / 10 <= 9)%Z /\ (0 <= n mod 10 <= 9)%Z.
Proof. intro H. Z.to_euclidean_division_equations. lia. Qed.

Lemma two_digits_value (m n : Z) :
  (0 <= m <= 99)%Z -> (0 <= n <= 99)%Z ->
  digit_unit (m / 10) = digit_unit (n / 10) ->
  digit_unit (m mod 10) = digit_unit (n mod 10) ->
  m = n.
Proof.
  intros Hm Hn E1 E2.
  destruct (two_digits_bounds m Hm), (two_digits_bounds n Hn).
  apply digit_unit_injective in E1; [|assumption|assumption].
  apply digit_unit_injective in E2; [|assumption|assumption].
  Z.to_euclidean_division_equations. lia.
Qed.

(** X20: the date of a day that exists is written as two digits for the
    day, a slash, two digits for the month counted from 1, a slash and
    the year, and two such dates are written the same only when they are
    the same day. *)
Theorem formatDate_shape_and_injective (d1 d2 : Date) :
  calendar_fields d1 -> calendar_fields d2 ->
  formatDate d1
  = String (digit_unit (getDate d1 / 10))
      (String (digit_unit (getDate d1 mod 10))
         (String "/"
            (String (digit_unit ((getMonth d1 + 1) / 10))
               (String (digit_unit ((getMonth d1 + 1) mod 10))
                  (String "/" (numberToString (getFullYear d1)))))))
  /\ (formatDate d1 = formatDate d2 -> d1 = d2).
Proof.
  intros [Hd1 Hm1] [Hd2 Hm2].
  assert (S : forall d, calendar_fields d ->
    formatDate d
    = String (digit_unit (getDate d / 10))
        (String (digit_unit (getDate d mod 10))
           (String "/"
              (String (digit_unit ((getMonth d + 1) / 10))
                 (String (digit_unit ((getMonth d + 1) mod 10))
                    (String "/" (numberToString (getFullYear d)))))))).
  { intros d [Hd Hm]. unfold formatDate.
    rewrite !padStart_two_digits by lia. reflexivity. }
  split; [apply S; split; assumption|].
  intro E.
  assert (E' := E).
  rewrite (S d1), (S d2) in E' by (split; assumption).
  injection E' as A1 A2 B1 B2 Y.
  apply numberToString_injective in Y.
  apply two_digits_value in A2; [|lia|lia|exact A1].
  apply two_digits_value in B2; [|lia|lia|exact B1].
  destruct d1, d2; simpl in *. f_equal; lia.
Qed.

End FormatDate.

Lemma formatDate_shape_and_injective_witness :
  Helpers.formatDate (Helpers.mkDate 5 0 2024) = "05/01/2024".
Proof.
  assert (H : Helpers.calendar_fields (Helpers.mkDate 5 0 2024))
    by (unfold Helpers.calendar_fields; simpl; lia).
  rewrite (proj1 (formatDate_shape_and_injective
                    (Helpers.mkDate 5 0 2024) (Helpers.mkDate 5 0 2024) H H)).
  reflexivity.
Defined.

Section RegexFacts.
Import Regex Helpers.

Lemma append_empty_inv (a b : string) :
  (a ++ b)%string = EmptyString -> a = EmptyString /\ b = EmptyString.
Proof. destruct a; simpl; [auto | discriminate]. Qed.

Lemma denotes_seq_inv (r1 r2 : re) (s : string) :
  denotes (Seq r1 r2) s ->
  exists s1 s2, s = (s1 ++ s2)%string /\ denotes r1 s1 /\ denotes r2 s2.
Proof. intro H. inversion H; subst. eauto. Qed.

Lemma denotes_class_inv (p : ascii -> bool) (s : string) :
  denotes (Class p) s -> exists c, s = String c EmptyString /\ p c = true.
Proof. intro H. inversion H; subst. eauto. Qed.

Lemma denotes_alt_inv (r1 r2 : re) (s : string) :
  denotes (Alt r1 r2) s -> denotes r1 s \/ denotes r2 s.
Proof. intro H. inversion H; subst; auto. Qed.

Lemma nullable_denotes (r : re) :
  nullable r = true <-> denotes r EmptyString.
Proof.
  induction r as [| |p|r1 IH1 r2 IH2|r1 IH1 r2 IH2|r IH]; simpl.
  - split; [discriminate | intro H; inversion H].
  - split; [constructor | reflexivity].
  - split; [discriminate | intro H; inversion H].
  - rewrite andb_true_iff, IH1, IH2. split.
    + intros [H1 H2]. exact (denotes_seq _ _ _ _ H1 H2).
    + intro H. apply denotes_seq_inv in H as (s1 & s2 & E & H1 & H2).
      symmetry in E. apply append_empty_inv in E as [-> ->]. now split.
  - rewrite orb_true_iff, IH1, IH2. split.
    + intros [H|H]; [now apply denotes_alt_l | now apply denotes_alt_r].
    + apply denotes_alt_inv.
  - split; [constructor | reflexivity].
Qed.

(** A string of a repetition that begins with [c] begins with a string
    of the repeated pattern that begins with [c]. *)
Lemma denotes_star_head (r : re) (c : ascii) (s : string) :
  denotes (Star r) (String c s) ->
  exists s1 s2, s = (s1 ++ s2)%string
                /\ denotes r (String c s1) /\ denotes (Star r) s2.
Proof.
  intro H. remember (Star r) as r' eqn:Er. remember (String c s) as t eqn:Et.
  revert s Et.
  induction H as [| | | | | |r0 s1 s2 H1 _ H2 IH2]; intros s' Et;
    try discriminate.
  injection Er as ->.
  destruct s1 as [|c1 s1]; simpl in Et.
  - apply IH2; [reflexivity | exact Et].
  - injection Et as -> <-. exists s1, s2. now repeat split.
Qed.

Lemma derive_denotes (r : re) (c : ascii) (s : string) :
  denotes (derive c r) s <-> denotes r (String c s).
Proof.
  revert s.
  induction r as [| |p|r1 IH1 r2 IH2|r1 IH1 r2 IH2|r IH]; intro s; simpl.
  - split; intro H; inversion H.
  - split; intro H; inversion H.
  - destruct (p c) eqn:Ep; split; intro H.
    + inversion H; subst. now constructor.
    + apply denotes_class_inv in H as (c' & [= -> ->] & _). constructor.
    + inversion H.
    + apply denotes_class_inv in H as (c' & [= -> ->] & Hp). congruence.
  - assert (Hseq : denotes (Seq (derive c r1) r2) s
                   -> denotes (Seq r1 r2) (String c s)).
    { intro H. apply denotes_seq_inv in H as (s1 & s2 & -> & H1 & H2).
      apply IH1 in H1.
      exact (denotes_seq _ _ (String c s1) s2 H1 H2). }
    assert (Hback : denotes (Seq r1 r2) (String c s) ->
                    denotes (Seq (derive c r1) r2) s
                    \/ (nullable r1 = true /\ denotes (derive c r2) s)).
    { intro H. apply denotes_seq_inv in H as (s1 & s2 & E & H1 & H2).
      destruct s1 as [|c1 s1]; simpl in E.
      - right. split; [now apply nullable_denotes|].
        apply IH2. now rewrite E.
      - injection E as -> ->. left.
        apply denotes_seq; [now apply IH1 | exact H2]. }
    destruct (nullable r1) eqn:En; split.
    + intro H. apply denotes_alt_inv in H as [H|H]; [auto|].
      apply nullable_denotes in En. apply IH2 in H.
      exact (denotes_seq _ _ EmptyString (String c s) En H).
    + intro H. destruct (Hback H) as [H'|[_ H']];
        [now apply denotes_alt_l | now apply denotes_alt_r].
    + exact Hseq.
    + intro H. destruct (Hback H) as [H'|[E _]]; [exact H' | discriminate].
  - split; intro H; apply denotes_alt_inv in H as [H|H].
    + apply denotes_alt_l. now apply IH1.
    + apply denotes_alt_r. now apply IH2.
    + apply denotes_alt_l. now apply IH1.
    + apply denotes_alt_r. now apply IH2.
  - split.
    + intro H. apply denotes_seq_inv in H as (s1 & s2 & -> & H1 & H2).
      apply IH in H1.
      exact (denotes_star_cons _ (String c s1) s2 H1 H2).
    + intro H. apply denotes_star_head in H as (s1 & s2 & -> & H1 & H2).
      apply denotes_seq; [now apply IH | exact H2].
Qed.

Lemma test_denotes (r : re) (s : string) :
  test r s = true <-> denotes r s.
Proof.
  revert r. induction s as [|c s IH]; intro r; simpl.
  - apply nullable_denotes.
  - rewrite IH. apply derive_denotes.
Qed.

(** The strings of [[p]*] and of [[p]+]. *)
Lemma denotes_star_class (p : ascii -> bool) (s : string) :
  denotes (Star (Class p)) s <-> string_forall p s = true.
Proof.
  split.
  - intro H. remember (Star (Class p)) as r eqn:Er.
    induction H as [| | | | | |r0 s1 s2 H1 _ H2 IH2]; try discriminate.
    + reflexivity.
    + injection Er as ->.
      apply denotes_class_inv in H1 as (c & -> & Hc). simpl.
      now rewrite Hc, IH2.
  - induction s as [|c s IH]; simpl; intro H; [constructor|].
    apply andb_true_iff in H as [Hc Hs].
    apply (denotes_star_cons _ (String c EmptyString) s);
      [now constructor | now apply IH].
Qed.

Lemma denotes_plus_class (p : ascii -> bool) (s : string) :
  denotes (Plus (Class p)) s
  <-> s <> EmptyString /\ string_forall p s = true.
Proof.
  unfold Plus. split.
  - intro H. apply denotes_seq_inv in H as (s1 & s2 & -> & H1 & H2).
    apply denotes_class_inv in H1 as (c & -> & Hc).
    apply denotes_star_class in H2. simpl.
    split; [discriminate|]. now rewrite Hc, H2.
  - intros [Hne H]. destruct s as [|c s]; [congruence|].
    simpl in H. apply andb_true_iff in H as [Hc Hs].
    apply (denotes_seq _ _ (String c EmptyString) s);
      [now constructor | now apply denotes_star_class].
Qed.

(** X21: [isValidEmail] accepts exactly the strings made of a name, an
    at sign, a domain, a full stop and an ending, the three parts not
    empty and free of whitespace and at signs; full stops inside the
    parts are not looked at. *)
Theorem isValidEmail_accepts (email : string) :
  isValidEmail email = true
  <-> exists name domain top,
        email = (name ++ "@" ++ domain ++ "." ++ top)%string
        /\ name <> EmptyString /\ domain <> EmptyString
        /\ top <> EmptyString
        /\ string_forall not_space_nor_at name = true
        /\ string_forall not_space_nor_at domain = true
        /\ string_forall not_space_nor_at top = true.
Proof.
  unfold isValidEmail, emailRegex. rewrite test_denotes. split.
  - intro H.
    apply denotes_seq_inv in H as (name & s2 & -> & Hn & H).
    apply denotes_seq_inv in H as (at_ & s3 & -> & Ha & H).
    apply denotes_seq_inv in H as (domain & s4 & -> & Hd & H).
    apply denotes_seq_inv in H as (dot & top & -> & Hdot & Ht).
    apply denotes_class_inv in Ha as (c & -> & Hc).
    apply denotes_class_inv in Hdot as (c' & -> & Hc').
    apply Ascii.eqb_eq in Hc, Hc'. subst.
    apply denotes_plus_class in Hn as [? ?], Hd as [? ?], Ht as [? ?].
    exists name, domain, top. simpl. now repeat split.
  - intros (name & domain & top & -> & Hn & Hd & Ht & Fn & Fd & Ft).
    apply denotes_seq; [now apply denotes_plus_class|].
    apply (denotes_seq _ _ "@"); [now constructor|].
    apply denotes_seq; [now apply denotes_plus_class|].
    apply (denotes_seq _ _ "."); [now constructor|].
    now apply denotes_plus_class.
Qed.

End RegexFacts.

Section EmailFacts.

Lemma string_forall_app (p : ascii -> bool) (a b : string) :
  string_forall p (a ++ b) = string_forall p a && string_forall p b.
Proof.
  induction a as [|c a IH]; simpl; [reflexivity|].
  now rewrite IH, andb_assoc.
Qed.

Lemma count_unit_app (c : ascii) (a b : string) :
  Helpers.count_unit c (a ++ b)
  = (Helpers.count_unit c a + Helpers.count_unit c b)%nat.
Proof. induction a as [|d a IH]; simpl; [reflexivity|]. rewrite IH. lia. Qed.

Lemma part_has_no_at (s : string) :
  string_forall Helpers.not_space_nor_at s = true ->
  Helpers.count_unit "@" s = 0%nat
  /\ string_forall (fun c => negb (is_space c)) s = true.
Proof.
  induction s as [|c s IH]; simpl; [auto|].
  intro H. apply andb_true_iff in H as [Hc Hs].
  destruct (IH Hs) as [-> ->]. unfold Helpers.not_space_nor_at in Hc.
  apply andb_true_iff in Hc as [Hsp Hat]. apply negb_true_iff in Hat.
  now rewrite Hat, Hsp.
Qed.

End EmailFacts.

(** X22: an address that [isValidEmail] accepts holds no whitespace and
    exactly one at sign, and is at least five characters long. *)
Theorem valid_email_has_one_at (email : string) :
  Helpers.isValidEmail email = true ->
  string_forall (fun c => negb (is_space c)) email = true
  /\ Helpers.count_unit "@" email = 1%nat
  /\ (5 <= String.length email)%nat.
Proof.
  intro H. apply isValidEmail_accepts in H
    as (name & domain & top & -> & Hn & Hd & Ht & Fn & Fd & Ft).
  destruct (part_has_no_at _ Fn) as [Cn Sn], (part_has_no_at _ Fd) as [Cd Sd],
    (part_has_no_at _ Ft) as [Ct St].
  split; [|split].
  - rewrite !string_forall_app. simpl. rewrite ?string_forall_app. simpl.
    now rewrite Sn, Sd, St.
  - rewrite !count_unit_app. simpl. rewrite ?count_unit_app. simpl.
    rewrite Cn, Cd, Ct. reflexivity.
  - rewrite !length_append. simpl. rewrite ?length_append. simpl.
    destruct name; [congruence|]. destruct domain; [congruence|].
    destruct top; [congruence|]. simpl. lia.
Qed.

Lemma valid_email_has_one_at_witness :
  Helpers.count_unit "@" "user@example.com" = 1%nat.
Proof.
  apply (valid_email_has_one_at "user@example.com"). reflexivity.
Defined.

(** An address with two full stops in a row after the at sign is
    accepted; one without a full stop after it is not. *)
Example isValidEmail_examples :
  Helpers.isValidEmail "user@example..com" = true
  /\ Helpers.isValidEmail "user@example" = false
  /\ Helpers.isValidEmail "user name@example.com" = false.
Proof. repeat split. Qed.
